(** * Wevolve landing page: the health-status indicator

    Shallow embedding of the two frontend variants of the landing page:
    - [Home]: the Next.js / Tailwind page (`export default function Home`),
    - [App]:  the Vite / MUI page (`function App`).

    Both keep two pieces of React state ([healthStatus], [loading]), issue
    one `axios.get` from a `useEffect` with an empty dependency array and
    render a status badge from the state.

    JavaScript values are modelled by [JsValue]; strings are byte strings
    (the source text is UTF-8, so the two status emoji are four bytes each).
    Member access can throw a TypeError, so expressions evaluate in [Exc]. *)

From Stdlib Require Import String Ascii List Bool Arith ZArith Lia.
Import ListNotations.
Open Scope string_scope.
Set Warnings "-register-all".

(** ** JavaScript values *)

Inductive JsValue : Type :=
| JUndefined
| JNull
| JBool (b : bool)
| JNum (n : Z)
| JStr (s : string)
| JArr (items : list JsValue)
| JObj (fields : list (string * JsValue)).

(** Outcome of evaluating an expression: a value or a thrown TypeError. *)
Inductive Exc (A : Type) : Type :=
| Ok (a : A)
| TypeError (msg : string).
Arguments Ok {A} a.
Arguments TypeError {A} msg.

Definition bind {A B : Type} (m : Exc A) (k : A -> Exc B) : Exc B :=
  match m with
  | Ok a => k a
  | TypeError msg => TypeError msg
  end.

Notation "x <- m ;; k" := (bind m (fun x => k))
  (at level 61, m at next level, right associativity).

(** Own property of an object literal / parsed JSON object. *)
Fixpoint own_property (key : string) (fields : list (string * JsValue)) : JsValue :=
  match fields with
  | [] => JUndefined
  | (k, v) :: rest => if String.eqb k key then v else own_property key rest
  end.

Fixpoint has_own_property (key : string) (fields : list (string * JsValue)) : bool :=
  match fields with
  | [] => false
  | (k, _) :: rest => if String.eqb k key then true else has_own_property key rest
  end.

(** [v.key]: throws on [null] and [undefined]; primitives and arrays have no
    property of the names the pages read ([status], [message]), which are
    not prototype members either. *)
Definition member (v : JsValue) (key : string) : Exc JsValue :=
  match v with
  | JUndefined => TypeError "Cannot read properties of undefined"
  | JNull => TypeError "Cannot read properties of null"
  | JObj fields => Ok (own_property key fields)
  | JBool _ | JNum _ | JStr _ | JArr _ => Ok JUndefined
  end.

Definition nullish (v : JsValue) : bool :=
  match v with
  | JUndefined | JNull => true
  | _ => false
  end.

(** [v?.key]: short-circuits to [undefined] on a nullish receiver. *)
Definition opt_member (v : JsValue) (key : string) : Exc JsValue :=
  if nullish v then Ok JUndefined else member v key.

(** [v === 'lit']: strict equality with a string literal. *)
Definition strict_eq_str (v : JsValue) (lit : string) : bool :=
  match v with
  | JStr s => String.eqb s lit
  | _ => false
  end.

(** [key in v] for the stored state, used to speak about the optional
    [message] field of the `HealthStatus` interface. *)
Definition has_field (v : JsValue) (key : string) : bool :=
  match v with
  | JObj fields => has_own_property key fields
  | _ => false
  end.

(** The `HealthStatus` interface of the TypeScript page.  Types are erased
    at run time; [js_of_health] is the object a value of the interface is. *)
Record HealthStatus : Type := mkHealth {
  status : string;
  message : option string
}.

Definition js_of_health (h : HealthStatus) : JsValue :=
  JObj (("status", JStr (status h)) ::
        match message h with
        | Some m => [("message", JStr m)]
        | None => []
        end).

(** ** Component state and the calls a callback makes *)

Record State : Type := mkState {
  healthStatus : JsValue;
  loading : bool
}.

Inductive Action : Type :=
| HttpGet (url : string)
| SetHealthStatus (v : JsValue)
| SetLoading (b : bool).

(** The axios response object; the pages read [res.data] only. *)
Record AxiosResponse : Type := mkResponse {
  data : JsValue;
  http_status : Z
}.

(** The value a rejected promise carries, which a `.catch` callback may
    inspect.  The type covers what axios can reject with under any
    configuration; the call of the pages passes none, and [axios_get] below
    says which of these values that call produces ([NetworkError] and
    [BadStatus] only). *)
Inductive Rejection : Type :=
| NetworkError (code : string)
| BadStatus (code : Z) (body : JsValue)
| TimeoutExceeded
| MalformedBody (raw : string)
| Thrown (v : JsValue).

Inductive Settlement : Type :=
| Fulfilled (res : AxiosResponse)
| Rejected (reason : Rejection).

(** The hook part of a page component: the two `useState` initial values,
    the `useEffect` body with its dependency array, and the two callbacks
    chained on the request promise. *)
Record Hooks : Type := mkHooks {
  initial : State;
  effect : list Action;
  deps : list JsValue;
  on_fulfilled : AxiosResponse -> list Action;
  on_rejected : Rejection -> list Action
}.

(** `promise.then(f).catch(g)`.  Neither callback of the pages can throw
    (they only call state setters), so [g] never runs after [f]. *)
Definition then_catch (f : AxiosResponse -> list Action)
  (g : Rejection -> list Action) (s : Settlement) : list Action :=
  match s with
  | Fulfilled res => f res
  | Rejected reason => g reason
  end.

(** ** The hooks runtime

    [w_deps] is the dependency array remembered from the previous commit
    ([None] before the first one); [w_pending] counts request promises that
    have been created and not settled yet. *)
Record World : Type := mkWorld {
  w_state : State;
  w_deps : option (list JsValue);
  w_pending : nat
}.

Inductive Event : Type :=
| Rerender
| Settle (s : Settlement).

(** `Object.is` on dependency values; two object or array values built in
    different renders are never the same reference. *)
Definition same_value (a b : JsValue) : bool :=
  match a, b with
  | JUndefined, JUndefined => true
  | JNull, JNull => true
  | JBool x, JBool y => Bool.eqb x y
  | JNum x, JNum y => Z.eqb x y
  | JStr x, JStr y => String.eqb x y
  | _, _ => false
  end.

(** React compares the arrays position by position up to the shorter one. *)
Fixpoint deps_equal (prev next : list JsValue) : bool :=
  match prev, next with
  | p :: ps, n :: ns => same_value p n && deps_equal ps ns
  | _, _ => true
  end.

Definition effect_due (prev : option (list JsValue)) (next : list JsValue) : bool :=
  match prev with
  | None => true
  | Some d => negb (deps_equal d next)
  end.

Definition exec_action (w : World) (a : Action) : World :=
  match a with
  | HttpGet _ => mkWorld (w_state w) (w_deps w) (S (w_pending w))
  | SetHealthStatus v =>
      mkWorld (mkState v (loading (w_state w))) (w_deps w) (w_pending w)
  | SetLoading b =>
      mkWorld (mkState (healthStatus (w_state w)) b) (w_deps w) (w_pending w)
  end.

Definition exec (acts : list Action) (w : World) : World :=
  fold_left exec_action acts w.

(** A render followed by its commit: the effect runs when it is due. *)
Definition commit (h : Hooks) (w : World) : World * list Action :=
  let acts := if effect_due (w_deps w) (deps h) then effect h else [] in
  (exec acts (mkWorld (w_state w) (Some (deps h)) (w_pending w)), acts).

(** The mount of a production build: first render, commit, the effect once.
    [mount_in] below adds the second effect run of StrictMode. *)
Definition mount (h : Hooks) : World * list Action :=
  commit h (mkWorld (initial h) None 0).

(** One event.  A settlement needs a pending promise; its callback runs,
    and the state change schedules a render. *)
Definition step (h : Hooks) (w : World) (ev : Event) : option (World * list Action) :=
  match ev with
  | Rerender => Some (commit h w)
  | Settle s =>
      match w_pending w with
      | O => None
      | S n =>
          let acts := then_catch (on_fulfilled h) (on_rejected h) s in
          let w1 := exec acts (mkWorld (w_state w) (w_deps w) n) in
          let (w2, acts2) := commit h w1 in
          Some (w2, (acts ++ acts2)%list)
      end
  end.

Fixpoint run (h : Hooks) (w : World) (evs : list Event) : option (World * list Action) :=
  match evs with
  | [] => Some (w, [])
  | ev :: rest =>
      match step h w ev with
      | None => None
      | Some (w1, t1) =>
          match run h w1 rest with
          | None => None
          | Some (w2, t2) => Some (w2, (t1 ++ t2)%list)
          end
      end
  end.

(** A page view: mount, then the events that follow. *)
Definition lifecycle (h : Hooks) (evs : list Event) : option (World * list Action) :=
  let (w0, t0) := mount h in
  match run h w0 evs with
  | None => None
  | Some (w, t) => Some (w, (t0 ++ t)%list)
  end.

(** Requests and state writes recorded in a trace. *)
Fixpoint requests (t : list Action) : list string :=
  match t with
  | [] => []
  | HttpGet url :: rest => url :: requests rest
  | _ :: rest => requests rest
  end.

Fixpoint writes (t : list Action) : list JsValue :=
  match t with
  | [] => []
  | SetHealthStatus v :: rest => v :: writes rest
  | _ :: rest => writes rest
  end.

(** ** Badge appearance *)

Inductive Visual : Type := Neutral | Positive | Negative.

Fixpoint split_on_space (s : string) : list string :=
  match s with
  | EmptyString => [EmptyString]
  | String c rest =>
      if Ascii.eqb c " " then EmptyString :: split_on_space rest
      else match split_on_space rest with
           | [] => [String c EmptyString]
           | w :: ws => String c w :: ws
           end
  end.

Definition has_class (cls className : string) : bool :=
  existsb (String.eqb cls) (split_on_space className).

(** [healthStatus?.status === 'healthy'], the test both pages use. *)
Definition status_is_healthy_expr (hs : JsValue) : Exc bool :=
  s <- opt_member hs "status" ;;
  Ok (strict_eq_str s "healthy").

(** ** The Next.js / Tailwind page *)
Module Home.

Definition API_BASE : string := "http://localhost:8000".

Definition health_url : string := API_BASE ++ "/health".

Definition offline : JsValue :=
  JObj [("status", JStr "offline"); ("message", JStr "Backend not running")].

Definition hooks : Hooks := {|
  initial := mkState JNull true;
  effect := [HttpGet health_url];
  deps := [];
  on_fulfilled := fun res => [SetHealthStatus (data res); SetLoading false];
  on_rejected := fun _ => [SetHealthStatus offline; SetLoading false]
|}.

Record Badge : Type := mkBadge {
  className : string;
  children : string
}.

Definition badge_class (st : State) : Exc string :=
  cls <- (if loading st
          then Ok "border-text-muted text-text-muted"
          else healthy <- status_is_healthy_expr (healthStatus st) ;;
               Ok (if healthy : bool
                   then "border-green-500 text-green-500"
                   else "border-red-500 text-red-500")) ;;
  Ok ("inline-block px-4 py-2 rounded-full border mb-12 " ++ cls).

Definition badge_text (st : State) : Exc string :=
  if loading st
  then Ok "Connecting..."
  else healthy <- status_is_healthy_expr (healthStatus st) ;;
       Ok (if healthy : bool then "🟢 Backend Connected" else "🔴 Backend Offline").

Definition render (st : State) : Exc Badge :=
  cls <- badge_class st ;;
  txt <- badge_text st ;;
  Ok (mkBadge cls txt).

(** Tailwind colour utilities of the badge: muted grey, green, red. *)
Definition visual (b : Badge) : option Visual :=
  if has_class "text-green-500" (className b) && has_class "border-green-500" (className b)
  then Some Positive
  else if has_class "text-red-500" (className b) && has_class "border-red-500" (className b)
  then Some Negative
  else if has_class "text-text-muted" (className b) && has_class "border-text-muted" (className b)
  then Some Neutral
  else None.

End Home.

(** ** The Vite / MUI page *)
Module App.

Definition API_BASE : string := "http://localhost:8000".

Definition health_url : string := API_BASE ++ "/health".

Definition offline : JsValue :=
  JObj [("status", JStr "offline"); ("message", JStr "Backend not running")].

Definition hooks : Hooks := {|
  initial := mkState JNull true;
  effect := [HttpGet health_url];
  deps := [];
  on_fulfilled := fun res => [SetHealthStatus (data res); SetLoading false];
  on_rejected := fun _ => [SetHealthStatus offline; SetLoading false]
|}.

(** The `Chip` props that depend on the state: [label] and the two colour
    entries of [sx]. *)
Record Chip : Type := mkChip {
  label : string;
  borderColor : string;
  color : string
}.

Definition chip_label (st : State) : Exc string :=
  if loading st
  then Ok "Connecting..."
  else healthy <- status_is_healthy_expr (healthStatus st) ;;
       Ok (if healthy : bool then "🟢 Backend Connected" else "🔴 Backend Offline").

(** Both colour entries ignore [loading]. *)
Definition chip_color (st : State) : Exc string :=
  healthy <- status_is_healthy_expr (healthStatus st) ;;
  Ok (if healthy : bool then "success.main" else "error.main").

Definition render (st : State) : Exc Chip :=
  lbl <- chip_label st ;;
  bc <- chip_color st ;;
  c <- chip_color st ;;
  Ok (mkChip lbl bc c).

(** Palette of [wevolveTheme]: the keys a chip colour can name. *)
Definition palette : list (string * string) :=
  [("primary.main", "#6366f1"); ("secondary.main", "#f472b6");
   ("success.main", "#10b981"); ("warning.main", "#f59e0b");
   ("error.main", "#ef4444");
   ("text.primary", "#f8fafc"); ("text.secondary", "#94a3b8")].

Fixpoint palette_lookup (key : string) (p : list (string * string)) : option string :=
  match p with
  | [] => None
  | (k, v) :: rest => if String.eqb k key then Some v else palette_lookup key rest
  end.

(** Emerald is the success colour, red the error colour, the secondary
    text grey the muted one. *)
Definition visual_of_colour (hex : option string) : option Visual :=
  match hex with
  | Some c =>
      if String.eqb c "#10b981" then Some Positive
      else if String.eqb c "#ef4444" then Some Negative
      else if String.eqb c "#94a3b8" then Some Neutral
      else None
  | None => None
  end.

Definition visual (c : Chip) : option Visual :=
  match visual_of_colour (palette_lookup (borderColor c) palette),
        visual_of_colour (palette_lookup (color c) palette) with
  | Some a, Some b =>
      match a, b with
      | Neutral, Neutral => Some Neutral
      | Positive, Positive => Some Positive
      | Negative, Negative => Some Negative
      | _, _ => None
      end
  | _, _ => None
  end.

End App.

(** ** Both variants side by side *)

Inductive Variant : Type := NextPage | VitePage.

Definition hooks_of (v : Variant) : Hooks :=
  match v with
  | NextPage => Home.hooks
  | VitePage => App.hooks
  end.

Definition text_of (v : Variant) (st : State) : Exc string :=
  match v with
  | NextPage => b <- Home.render st ;; Ok (Home.children b)
  | VitePage => c <- App.render st ;; Ok (App.label c)
  end.

Definition visual_of (v : Variant) (st : State) : Exc (option Visual) :=
  match v with
  | NextPage => b <- Home.render st ;; Ok (Home.visual b)
  | VitePage => c <- App.render st ;; Ok (App.visual c)
  end.

(** The state a page view is in right after its request promise settled
    (no re-render in between), when the view accepts the settlement. *)
Definition resolved_state (v : Variant) (s : Settlement) : option State :=
  match lifecycle (hooks_of v) [Settle s] with
  | Some (w, _) => Some (w_state w)
  | None => None
  end.

(** The object both pages build in their `.catch` callback. *)
Definition offline_value : JsValue :=
  JObj [("status", JStr "offline"); ("message", JStr "Backend not running")].

(** The value a callback of the shape `setHealthStatus(...)` stores for a
    settlement, given the value its failure branch builds. *)
Definition stored_value (fallback : JsValue) (s : Settlement) : JsValue :=
  match s with
  | Fulfilled res => data res
  | Rejected _ => fallback
  end.

(** ** Vocabulary of the requirements *)

(** The [status] field of a stored value, when it has one. *)
Definition status_field (hs : JsValue) : option JsValue :=
  match hs with
  | JObj fields =>
      if has_own_property "status" fields
      then Some (own_property "status" fields)
      else None
  | _ => None
  end.

(** "status exactly equal to healthy". *)
Definition reports_healthy (hs : JsValue) : bool :=
  match status_field hs with
  | Some (JStr s) => String.eqb s "healthy"
  | _ => false
  end.

(** The badge text in the words of the requirements document, which names
    the three texts without the status emoji. *)
Definition documented_badge_text (st : State) : string :=
  if loading st then "Connecting..."
  else if reports_healthy (healthStatus st) then "Backend Connected"
  else "Backend Offline".

(** ** Event streams and setter calls taking effect one at a time *)

(** The settlements an event list delivers, in order. *)
Fixpoint settlements (evs : list Event) : list Settlement :=
  match evs with
  | [] => []
  | Rerender :: rest => settlements rest
  | Settle s :: rest => s :: settlements rest
  end.

(** The states a component shows when the calls of a callback are applied
    one by one with a render after each (no batching of setters). *)
Fixpoint states_during (acts : list Action) (w : World) : list State :=
  match acts with
  | [] => []
  | a :: rest => w_state (exec_action w a) :: states_during rest (exec_action w a)
  end.

(** ** The theme of the Vite entry point *)

Fixpoint split_on (sep : ascii) (s : string) : list string :=
  match s with
  | EmptyString => [EmptyString]
  | String c rest =>
      if Ascii.eqb c sep then EmptyString :: split_on sep rest
      else match split_on sep rest with
           | [] => [String c EmptyString]
           | w :: ws => String c w :: ws
           end
  end.

Definition falsy (v : JsValue) : bool :=
  match v with
  | JUndefined | JNull => true
  | JBool b => negb b
  | JNum n => Z.eqb n 0
  | JStr s => String.eqb s ""
  | JArr _ | JObj _ => false
  end.

(** MUI's `getPath`: walk the dotted path, giving [null] as soon as a step
    is missing. *)
Fixpoint get_path (obj : JsValue) (path : list string) : JsValue :=
  match path with
  | [] => obj
  | item :: rest =>
      match obj with
      | JObj fields =>
          if nullish (own_property item fields) then JNull
          else get_path (own_property item fields) rest
      | _ => JNull
      end
  end.

(** How an `sx` colour entry is resolved: through the theme palette, and
    left as written when the palette has no such path. *)
Definition resolve_colour (theme : JsValue) (value : string) : JsValue :=
  let found := get_path (get_path theme ["palette"]) (split_on "." value) in
  if falsy found then JStr value else found.

(** The double-quote character, for string values that contain it. *)
Definition dquote : string := String "034" EmptyString.

Module Main.

(** The argument of `createTheme`. *)
Definition wevolveTheme : JsValue :=
  JObj
    [("palette",
      JObj
        [("mode", JStr "dark");
         ("primary",
          JObj [("main", JStr "#6366f1"); ("light", JStr "#818cf8");
                ("dark", JStr "#4f46e5")]);
         ("secondary",
          JObj [("main", JStr "#f472b6"); ("light", JStr "#f9a8d4");
                ("dark", JStr "#ec4899")]);
         ("success", JObj [("main", JStr "#10b981")]);
         ("warning", JObj [("main", JStr "#f59e0b")]);
         ("error", JObj [("main", JStr "#ef4444")]);
         ("background",
          JObj [("default", JStr "#0f0f1a"); ("paper", JStr "#1a1a2e")]);
         ("text",
          JObj [("primary", JStr "#f8fafc"); ("secondary", JStr "#94a3b8")])]);
     ("typography",
      JObj
        [("fontFamily",
          JStr (dquote ++ "Inter" ++ dquote ++ ", " ++ dquote ++ "Roboto" ++ dquote
                ++ ", " ++ dquote ++ "Helvetica" ++ dquote ++ ", " ++ dquote
                ++ "Arial" ++ dquote ++ ", sans-serif"));
         ("h1", JObj [("fontWeight", JNum 800)]);
         ("h2", JObj [("fontWeight", JNum 700)]);
         ("h3", JObj [("fontWeight", JNum 600)]);
         ("button",
          JObj [("textTransform", JStr "none"); ("fontWeight", JNum 600)])]);
     ("shape", JObj [("borderRadius", JNum 12)]);
     ("components",
      JObj
        [("MuiButton",
          JObj
            [("styleOverrides",
              JObj
                [("root",
                  JObj [("borderRadius", JNum 8); ("padding", JStr "10px 20px")]);
                 ("contained",
                  JObj [("boxShadow",
                         JStr "0 4px 14px 0 rgba(99, 102, 241, 0.39)")])])]);
         ("MuiCard",
          JObj
            [("styleOverrides",
              JObj
                [("root",
                  JObj
                    [("backgroundImage",
                      JStr "linear-gradient(135deg, rgba(99, 102, 241, 0.1) 0%, rgba(244, 114, 182, 0.1) 100%)");
                     ("backdropFilter", JStr "blur(10px)");
                     ("border", JStr "1px solid rgba(255, 255, 255, 0.1)")])])])])].

(** The root is rendered as `<React.StrictMode> ... <App /> ...`. *)
Definition strict_root : bool := true.

End Main.

(** ** The rewrite table of the Next.js configuration

    The pathname of a request is matched against the [source] pattern
    segment by segment, ignoring letter case as the router does by default;
    [:name] takes one segment and [:name*] the remaining ones (none
    included).  The matched segments are substituted in the path of
    [destination], and the target is normalised as a URL.  A parameter
    never takes an empty segment, and a wildcard is matched in final
    position, the one place the configuration uses it. *)

Inductive Token : Type :=
| Lit (s : string)
| Param (name : string)
| ParamStar (name : string).

Definition lower (c : ascii) : ascii :=
  let n := nat_of_ascii c in
  if (65 <=? n)%nat && (n <=? 90)%nat then ascii_of_nat (n + 32) else c.

Fixpoint lowercase (s : string) : string :=
  match s with
  | EmptyString => EmptyString
  | String c rest => String (lower c) (lowercase rest)
  end.

Fixpoint ends_with_star (s : string) : bool :=
  match s with
  | EmptyString => false
  | String c EmptyString => Ascii.eqb c "*"
  | String _ rest => ends_with_star rest
  end.

Fixpoint drop_last (s : string) : string :=
  match s with
  | EmptyString => EmptyString
  | String _ EmptyString => EmptyString
  | String c rest => String c (drop_last rest)
  end.

Definition token_of (seg : string) : Token :=
  match seg with
  | String c name =>
      if Ascii.eqb c ":"
      then if ends_with_star name then ParamStar (drop_last name) else Param name
      else Lit seg
  | EmptyString => Lit seg
  end.

(** The segments of a request pathname: what follows each slash.  A
    pathname starts with a slash. *)
Definition segments (path : string) : option (list string) :=
  match path with
  | String c rest => if Ascii.eqb c "/" then Some (split_on "/" rest) else None
  | EmptyString => None
  end.

Definition path_of (segs : list string) : string :=
  "/" ++ String.concat "/" segs.

Fixpoint free_of (sep : ascii) (s : string) : bool :=
  match s with
  | EmptyString => true
  | String c rest => negb (Ascii.eqb c sep) && free_of sep rest
  end.

(** Letters, digits and [- . _ ~]: the characters a URL carries unchanged. *)
Definition unreserved (c : ascii) : bool :=
  let n := nat_of_ascii c in
  ((48 <=? n)%nat && (n <=? 57)%nat) || ((65 <=? n)%nat && (n <=? 90)%nat)
  || ((97 <=? n)%nat && (n <=? 122)%nat)
  || (n =? 45)%nat || (n =? 46)%nat || (n =? 95)%nat || (n =? 126)%nat.

Fixpoint all_chars (p : ascii -> bool) (s : string) : bool :=
  match s with
  | EmptyString => true
  | String c rest => p c && all_chars p rest
  end.

Definition single_dot (s : string) : bool :=
  String.eqb s "." || String.eqb (lowercase s) "%2e".

Definition double_dot (s : string) : bool :=
  String.eqb s ".." || String.eqb (lowercase s) ".%2e"
  || String.eqb (lowercase s) "%2e." || String.eqb (lowercase s) "%2e%2e".

Definition dot_free (s : string) : bool :=
  negb (single_dot s) && negb (double_dot s).

(** A plain path segment: not empty, of unreserved characters only, and
    neither of the dot segments. *)
Definition is_segment (s : string) : bool :=
  negb (String.eqb s "") && all_chars unreserved s
  && negb (single_dot s) && negb (double_dot s).

(** Dot segments are resolved when the target URL is parsed: [.] is
    dropped and [..] removes the segment before it; either one in last
    position leaves an empty last segment. *)
Fixpoint remove_dots_from (stack segs : list string) : list string :=
  match segs with
  | [] => rev stack
  | seg :: rest =>
      if single_dot seg then
        match rest with
        | [] => rev (EmptyString :: stack)
        | _ :: _ => remove_dots_from stack rest
        end
      else if double_dot seg then
        match rest with
        | [] => rev (EmptyString :: tl stack)
        | _ :: _ => remove_dots_from (tl stack) rest
        end
      else remove_dots_from (seg :: stack) rest
  end.

Definition remove_dots (segs : list string) : list string :=
  remove_dots_from [] segs.

Fixpoint match_tokens (toks : list Token) (segs : list string)
  : option (list (string * list string)) :=
  match toks with
  | [] => match segs with [] => Some [] | _ :: _ => None end
  | Lit s :: ts =>
      match segs with
      | x :: xs =>
          if String.eqb (lowercase s) (lowercase x) then match_tokens ts xs else None
      | [] => None
      end
  | Param name :: ts =>
      match segs with
      | x :: xs =>
          if String.eqb x "" then None
          else match match_tokens ts xs with
               | Some ps => Some ((name, [x]) :: ps)
               | None => None
               end
      | [] => None
      end
  | ParamStar name :: ts =>
      match ts with
      | [] => if forallb (fun x => negb (String.eqb x "")) segs
              then Some [(name, segs)] else None
      | _ :: _ => None
      end
  end.

Fixpoint param_value (name : string) (ps : list (string * list string)) : list string :=
  match ps with
  | [] => []
  | (k, v) :: rest => if String.eqb k name then v else param_value name rest
  end.

Fixpoint substitute (ps : list (string * list string)) (segs : list string) : list string :=
  match segs with
  | [] => []
  | seg :: rest =>
      match token_of seg with
      | Lit s => s :: substitute ps rest
      | Param name | ParamStar name => (param_value name ps ++ substitute ps rest)%list
      end
  end.

Module NextConfig.

Record Rewrite : Type := mkRewrite {
  source : string;
  destination : string
}.

Definition rewrites : list Rewrite :=
  [mkRewrite "/api/:path*" "http://localhost:8000/api/:path*"].

End NextConfig.

(** The target of a rule for a pathname: the origin of [destination]
    followed by its path with the parameters filled in. *)
Definition apply_rewrite (r : NextConfig.Rewrite) (path : string) : option string :=
  match segments (NextConfig.source r), segments path with
  | Some pattern, Some segs =>
      match match_tokens (map token_of pattern) segs with
      | Some ps =>
          match split_on "/" (NextConfig.destination r) with
          | scheme :: EmptyString :: host :: target =>
              Some (scheme ++ "//" ++ host
                    ++ path_of (remove_dots (substitute ps target)))
          | _ => None
          end
      | None => None
      end
  | _, _ => None
  end.

(** The first rule that matches decides. *)
Fixpoint apply_rewrites (rs : list NextConfig.Rewrite) (path : string) : option string :=
  match rs with
  | [] => None
  | r :: rest =>
      match apply_rewrite r path with
      | Some url => Some url
      | None => apply_rewrites rest path
      end
  end.

(** ** The markup of the two pages

    What each component returns, as a tree of element names with the text
    they contain.  Styling attributes are static and left out, and so are
    the whitespace-only texts between elements.  A literal text is kept as
    its source lines (without their indentation); a string produced by an
    expression or passed as a `label` is kept as it is. *)

Inductive Node : Type :=
| JsxText (lines : list string)
| Expr (s : string)
| Elem (tag : string) (kids : list Node).

Fixpoint ltrim (s : string) : string :=
  match s with
  | String c rest => if Ascii.eqb c " " then ltrim rest else s
  | EmptyString => EmptyString
  end.

Fixpoint rtrim (s : string) : string :=
  match s with
  | EmptyString => EmptyString
  | String c rest =>
      let r := rtrim rest in
      if Ascii.eqb c " " && String.eqb r "" then EmptyString else String c r
  end.

(** JSX trims every line of a literal text (the first not on the left, the
    last not on the right), drops the lines left empty and joins the others
    with one blank. *)
Fixpoint jsx_lines (first : bool) (lines : list string) : list string :=
  match lines with
  | [] => []
  | [l] => [if first then l else ltrim l]
  | l :: rest => rtrim (if first then l else ltrim l) :: jsx_lines false rest
  end.

Definition jsx_text (lines : list string) : option string :=
  match filter (fun l => negb (String.eqb l "")) (jsx_lines true lines) with
  | [] => None
  | kept => Some (String.concat " " kept)
  end.

(** The texts of a tree in document order. *)
Fixpoint text_content (n : Node) : list string :=
  match n with
  | JsxText lines =>
      match jsx_text lines with
      | Some s => [s]
      | None => []
      end
  | Expr s => [s]
  | Elem _ kids => flat_map text_content kids
  end.

(** The positions at which two text sequences differ. *)
Definition differences (a b : list string) : list (string * string) :=
  filter (fun p => negb (String.eqb (fst p) (snd p))) (combine a b).

Module HomePage.

Definition feature_card (paths : nat) (title description tag : string) : Node :=
  Elem "div"
    [Elem "div" [Elem "svg" (repeat (Elem "path" []) paths)];
     Elem "h3" [JsxText [title]];
     Elem "p" [JsxText [""; description; ""]];
     Elem "span" [JsxText [""; tag; ""]]].

Definition page (st : State) : Exc Node :=
  badge <- Home.render st ;;
  Ok (Elem "div"
        [Elem "section"
           [Elem "div" [];
            Elem "div" [];
            Elem "div"
              [Elem "h1" [JsxText [""; "Wevolve"; ""]];
               Elem "p" [JsxText [""; "The AI-Powered Career Acceleration Ecosystem"; ""]];
               Elem "div" [JsxText [""; ""]; Expr (Home.children badge); JsxText [""; ""]]]];
         Elem "section"
           [Elem "div"
              [feature_card 1 "Resume Intelligence"
                 "Upload your resume and get instant AI-powered parsing with confidence scores. Know exactly how complete your profile is."
                 "The Fix";
               feature_card 1 "Transparent Matching"
                 "See exactly why you match with a job. Our multi-factor engine explains every score: Skills (40%), Location, Salary, and more."
                 "The Why";
               feature_card 3 "Actionable Growth"
                 "Get a personalized learning roadmap based on your skill gaps. We show you how to become the perfect candidate."
                 "The How"];
            Elem "div"
              [Elem "button" [JsxText [""; "🚀 Start Your Evolution"; ""]];
               Elem "p" [JsxText [""; "Upload your resume to get started →"; ""]]]];
         Elem "footer"
           [Elem "p"
              [JsxText [""; "Built with ❤️ by "];
               Elem "strong" [JsxText ["Kasukabe Defence Group"]];
               JsxText [""; ""]]]]).

End HomePage.

Module AppPage.

Definition feature_card (icon title : string) (description : list string)
  (tag : string) : Node :=
  Elem "Grid"
    [Elem "Card"
       [Elem "CardContent"
          [Elem "Box" [Elem icon []];
           Elem "Typography" [JsxText [""; title; ""]];
           Elem "Typography" [JsxText ("" :: description ++ [""])%list];
           Elem "Chip" [Expr tag]]]].

Definition page (st : State) : Exc Node :=
  chip <- App.render st ;;
  Ok (Elem "Box"
        [Elem "Box"
           [Elem "Box" [];
            Elem "Box" [];
            Elem "Container"
              [Elem "Typography" [JsxText [""; "Wevolve"; ""]];
               Elem "Typography"
                 [JsxText [""; "The AI-Powered Career Acceleration Ecosystem"; ""]];
               Elem "Chip" [Expr (App.label chip)]]];
         Elem "Container"
           [Elem "Grid"
              [feature_card "CloudUploadIcon" "Resume Intelligence"
                 ["Upload your resume and get instant AI-powered parsing with confidence scores.";
                  "Know exactly how complete your profile is."]
                 "The Fix";
               feature_card "WorkIcon" "Transparent Matching"
                 ["See exactly why you match with a job. Our multi-factor engine explains";
                  "every score: Skills (40%), Location, Salary, and more."]
                 "The Why";
               feature_card "SchoolIcon" "Actionable Growth"
                 ["Get a personalized learning roadmap based on your skill gaps.";
                  "We show you how to become the perfect candidate."]
                 "The How"];
            Elem "Box"
              [Elem "Button"
                 [Elem "TrendingUpIcon" [];
                  JsxText [""; "Start Your Evolution"; ""]];
               Elem "Typography" [JsxText [""; "Upload your resume to get started →"; ""]]]];
         Elem "Box"
           [Elem "Typography"
              [JsxText [""; "Built with ❤️ by "];
               Elem "strong" [JsxText ["Kasukabe Defence Group"]];
               JsxText [""; ""]]]]).

End AppPage.

(** ** Builds and StrictMode

    [mount] and [lifecycle] describe a production build.  In a development
    build, a root that wraps the page in `React.StrictMode` runs every
    effect once more right after mounting (setup, cleanup, setup) on the
    same state.  The effect of the pages returns no cleanup, so its body
    simply runs twice: two requests, two pending promises. *)

Inductive Build : Type := ProductionBuild | DevelopmentBuild.

Record Runtime : Type := mkRuntime {
  build : Build;
  strict_mode : bool
}.

Definition double_invoke (r : Runtime) : bool :=
  match build r with
  | ProductionBuild => false
  | DevelopmentBuild => strict_mode r
  end.

Definition effect_runs (r : Runtime) : nat :=
  if double_invoke r then 2 else 1.

Definition mount_in (r : Runtime) (h : Hooks) : World * list Action :=
  let (w, t) := mount h in
  if double_invoke r then (exec (effect h) w, (t ++ effect h)%list) else (w, t).

(** A page view under a runtime: mount, then the events that follow. *)
Definition page_view (r : Runtime) (h : Hooks) (evs : list Event)
  : option (World * list Action) :=
  let (w0, t0) := mount_in r h in
  match run h w0 evs with
  | None => None
  | Some (w, t) => Some (w, (t0 ++ t)%list)
  end.

(** `npm run dev` on the Vite variant: development build, root as written
    in the entry point. *)
Definition vite_dev : Runtime := mkRuntime DevelopmentBuild Main.strict_root.

(** The state after a sequence of settlements has been delivered, and the
    setter calls their callbacks make. *)
Fixpoint settle_all (st : State) (ss : list Settlement) : State :=
  match ss with
  | [] => st
  | s :: rest => settle_all (mkState (stored_value offline_value s) false) rest
  end.

Fixpoint callback_calls (ss : list Settlement) : list Action :=
  match ss with
  | [] => []
  | s :: rest =>
      SetHealthStatus (stored_value offline_value s) :: SetLoading false
        :: callback_calls rest
  end.

(** ** The request as axios performs it

    `axios.get(url)` is called without a config object, so the defaults of
    the library decide how an exchange settles the promise: a failure to
    connect rejects; an answer is fulfilled when its status is 2xx and
    rejected otherwise; a body that does not parse as JSON is handed over
    as the raw text; no timeout is set, so without an answer the promise
    stays pending. *)







(** The texts a page shows, in document order. *)
Definition page_texts (v : Variant) (st : State) : Exc (list string) :=
  match v with
  | NextPage => n <- HomePage.page st ;; Ok (text_content n)
  | VitePage => n <- AppPage.page st ;; Ok (text_content n)
  end.

(** ** Expression-level facts *)

Lemma own_property_absent (key : string) (fields : list (string * JsValue)) :
  has_own_property key fields = false -> own_property key fields = JUndefined.
Proof.
  induction fields as [| [k v] rest IH]; simpl; [reflexivity |].
  destruct (String.eqb k key); [discriminate | exact IH].
Qed.

Lemma opt_member_never_throws (hs : JsValue) (key : string) :
  exists v, opt_member hs key = Ok v.
Proof.
  destruct hs; simpl; eexists; reflexivity.
Qed.

Lemma member_throws_on_nullish (hs : JsValue) (key : string) :
  nullish hs = true -> exists msg, member hs key = TypeError msg.
Proof.
  destruct hs; simpl; intros H; try discriminate; eexists; reflexivity.
Qed.

Lemma healthy_expr_value (hs : JsValue) :
  status_is_healthy_expr hs = Ok (reports_healthy hs).
Proof.
  unfold status_is_healthy_expr, reports_healthy, status_field.
  destruct hs as [| | b | n | s | items | fields]; try reflexivity.
  unfold opt_member, member; simpl.
  destruct (has_own_property "status" fields) eqn:Hhas; [reflexivity |].
  now rewrite (own_property_absent _ _ Hhas).
Qed.

Lemma reports_healthy_iff (hs : JsValue) :
  reports_healthy hs = true <-> status_field hs = Some (JStr "healthy").
Proof.
  unfold reports_healthy.
  destruct (status_field hs) as [[| | b | n | s | items | fields] |];
    split; intros H; try discriminate; try (inversion H; reflexivity).
  apply String.eqb_eq in H. now subst.
Qed.

Lemma not_healthy_iff (hs : JsValue) :
  reports_healthy hs = false <-> status_field hs <> Some (JStr "healthy").
Proof.
  rewrite <- reports_healthy_iff.
  destruct (reports_healthy hs); split; intros H; congruence.
Qed.

(** ** What each page renders *)

Lemma home_text_value (st : State) :
  Home.badge_text st =
  Ok (if loading st then "Connecting..."
      else if reports_healthy (healthStatus st)
           then "🟢 Backend Connected" else "🔴 Backend Offline").
Proof.
  unfold Home.badge_text.
  destruct (loading st); [reflexivity |].
  now rewrite healthy_expr_value.
Qed.

Lemma home_class_value (st : State) :
  Home.badge_class st =
  Ok ("inline-block px-4 py-2 rounded-full border mb-12 " ++
      (if loading st then "border-text-muted text-text-muted"
       else if reports_healthy (healthStatus st)
            then "border-green-500 text-green-500"
            else "border-red-500 text-red-500")).
Proof.
  unfold Home.badge_class.
  destruct (loading st); [reflexivity |].
  now rewrite healthy_expr_value.
Qed.

Lemma app_label_value (st : State) :
  App.chip_label st =
  Ok (if loading st then "Connecting..."
      else if reports_healthy (healthStatus st)
           then "🟢 Backend Connected" else "🔴 Backend Offline").
Proof.
  unfold App.chip_label.
  destruct (loading st); [reflexivity |].
  now rewrite healthy_expr_value.
Qed.

Lemma app_colour_value (st : State) :
  App.chip_color st =
  Ok (if reports_healthy (healthStatus st) then "success.main" else "error.main").
Proof.
  unfold App.chip_color. now rewrite healthy_expr_value.
Qed.

Lemma text_of_value (v : Variant) (st : State) :
  text_of v st =
  Ok (if loading st then "Connecting..."
      else if reports_healthy (healthStatus st)
           then "🟢 Backend Connected" else "🔴 Backend Offline").
Proof.
  destruct v; unfold text_of, Home.render, App.render.
  - rewrite home_class_value, home_text_value. reflexivity.
  - rewrite app_label_value, app_colour_value. reflexivity.
Qed.

Lemma home_visual_value (st : State) :
  visual_of NextPage st =
  Ok (Some (if loading st then Neutral
            else if reports_healthy (healthStatus st) then Positive else Negative)).
Proof.
  unfold visual_of, Home.render.
  rewrite home_class_value, home_text_value.
  destruct (loading st); [reflexivity |].
  destruct (reports_healthy (healthStatus st)); reflexivity.
Qed.

Lemma app_visual_value (st : State) :
  visual_of VitePage st =
  Ok (Some (if reports_healthy (healthStatus st) then Positive else Negative)).
Proof.
  unfold visual_of, App.render.
  rewrite app_label_value, app_colour_value.
  destruct (reports_healthy (healthStatus st)); reflexivity.
Qed.

Lemma resolved_visual_value (v : Variant) (st : State) :
  loading st = false ->
  visual_of v st =
  Ok (Some (if reports_healthy (healthStatus st) then Positive else Negative)).
Proof.
  intros Hl. destruct v.
  - rewrite home_visual_value, Hl. reflexivity.
  - apply app_visual_value.
Qed.

(** ** The runtime on a fetch-once component

    The facts below hold for any component shaped like the two pages: one
    request in the effect, an empty dependency array, and callbacks that
    store a value and clear [loading]. *)
Section FetchOnce.

Variable h : Hooks.
Variable url : string.
Variable fallback : JsValue.

Hypothesis effect_shape : effect h = [HttpGet url].
Hypothesis deps_shape : deps h = [].
Hypothesis initial_shape : initial h = mkState JNull true.
Hypothesis fulfilled_shape :
  forall res, on_fulfilled h res = [SetHealthStatus (data res); SetLoading false].
Hypothesis rejected_shape :
  forall e, on_rejected h e = [SetHealthStatus fallback; SetLoading false].

Lemma callback_trace (s : Settlement) :
  then_catch (on_fulfilled h) (on_rejected h) s =
  [SetHealthStatus (stored_value fallback s); SetLoading false].
Proof.
  destruct s; simpl; [apply fulfilled_shape | apply rejected_shape].
Qed.

Lemma mount_value :
  mount h = (mkWorld (mkState JNull true) (Some []) 1, [HttpGet url]).
Proof.
  unfold mount, commit. simpl.
  rewrite effect_shape, deps_shape, initial_shape. reflexivity.
Qed.

Lemma commit_idle (st : State) (n : nat) :
  commit h (mkWorld st (Some []) n) = (mkWorld st (Some []) n, []).
Proof.
  unfold commit. simpl. rewrite deps_shape. reflexivity.
Qed.

Lemma step_rerender (st : State) (n : nat) :
  step h (mkWorld st (Some []) n) Rerender = Some (mkWorld st (Some []) n, []).
Proof.
  simpl. now rewrite commit_idle.
Qed.

Lemma step_settle (st : State) (n : nat) (s : Settlement) :
  step h (mkWorld st (Some []) (S n)) (Settle s) =
  Some (mkWorld (mkState (stored_value fallback s) false) (Some []) n,
        [SetHealthStatus (stored_value fallback s); SetLoading false]).
Proof.
  unfold step. cbn [w_pending w_state w_deps].
  rewrite callback_trace. cbn [exec fold_left exec_action w_state w_deps w_pending
                               healthStatus loading].
  rewrite commit_idle. reflexivity.
Qed.

(** Nothing is pending: only re-renders are possible and they change
    nothing. *)
Lemma run_settled (evs : list Event) (st : State) (w : World) (t : list Action) :
  run h (mkWorld st (Some []) 0) evs = Some (w, t) ->
  w = mkWorld st (Some []) 0 /\ t = [].
Proof.
  revert w t. induction evs as [| ev rest IH]; intros w t Hrun.
  - simpl in Hrun. inversion Hrun. auto.
  - destruct ev as [| s].
    + cbn [run] in Hrun. rewrite step_rerender in Hrun.
      destruct (run h (mkWorld st (Some []) 0) rest) as [[w2 t2] |] eqn:Hrest;
        [| discriminate].
      inversion Hrun; subst. destruct (IH _ _ eq_refl) as [-> ->]. auto.
    + simpl in Hrun. discriminate.
Qed.

(** One request is pending: either it is still pending at the end, or
    exactly one settlement of the event list was delivered. *)
Lemma run_waiting (evs : list Event) (st : State) (w : World) (t : list Action) :
  run h (mkWorld st (Some []) 1) evs = Some (w, t) ->
  (w = mkWorld st (Some []) 1 /\ t = []) \/
  (exists s, In (Settle s) evs /\
             w = mkWorld (mkState (stored_value fallback s) false) (Some []) 0 /\
             t = [SetHealthStatus (stored_value fallback s); SetLoading false]).
Proof.
  revert w t. induction evs as [| ev rest IH]; intros w t Hrun.
  - simpl in Hrun. inversion Hrun. auto.
  - destruct ev as [| s]; cbn [run] in Hrun.
    + rewrite step_rerender in Hrun.
      destruct (run h (mkWorld st (Some []) 1) rest) as [[w2 t2] |] eqn:Hrest;
        [| discriminate].
      inversion Hrun; subst.
      destruct (IH _ _ eq_refl) as [[-> ->] | (s & Hin & -> & ->)]; [auto |].
      right. exists s. simpl. auto.
    + rewrite step_settle in Hrun.
      destruct (run h (mkWorld (mkState (stored_value fallback s) false) (Some []) 0) rest)
        as [[w2 t2] |] eqn:Hrest; [| discriminate].
      inversion Hrun; subst.
      destruct (run_settled _ _ _ _ Hrest) as [-> ->].
      right. exists s. simpl. auto.
Qed.

Lemma lifecycle_cases (evs : list Event) (w : World) (t : list Action) :
  lifecycle h evs = Some (w, t) ->
  (w = mkWorld (mkState JNull true) (Some []) 1 /\ t = [HttpGet url]) \/
  (exists s, In (Settle s) evs /\
             w = mkWorld (mkState (stored_value fallback s) false) (Some []) 0 /\
             t = [HttpGet url; SetHealthStatus (stored_value fallback s); SetLoading false]).
Proof.
  unfold lifecycle. rewrite mount_value.
  destruct (run h (mkWorld (mkState JNull true) (Some []) 1) evs)
    as [[w2 t2] |] eqn:Hrun; [| discriminate].
  intros Heq. inversion Heq; subst.
  destruct (run_waiting _ _ _ _ Hrun) as [[-> ->] | (s & Hin & -> & ->)].
  - left. auto.
  - right. exists s. auto.
Qed.

Lemma lifecycle_rerenders (n : nat) :
  lifecycle h (repeat Rerender n) =
  Some (mkWorld (mkState JNull true) (Some []) 1, [HttpGet url]).
Proof.
  unfold lifecycle. rewrite mount_value.
  assert (Hrun : run h (mkWorld (mkState JNull true) (Some []) 1) (repeat Rerender n)
                 = Some (mkWorld (mkState JNull true) (Some []) 1, [])).
  { induction n as [| n IH]; [reflexivity |].
    cbn [repeat run]. rewrite step_rerender, IH. reflexivity. }
  rewrite Hrun. reflexivity.
Qed.

Lemma lifecycle_requests (evs : list Event) (w : World) (t : list Action) :
  lifecycle h evs = Some (w, t) -> requests t = [url].
Proof.
  intros Hl. destruct (lifecycle_cases _ _ _ Hl) as [[_ ->] | (s & _ & _ & ->)];
    reflexivity.
Qed.

End FetchOnce.

Lemma hooks_shape (v : Variant) :
  effect (hooks_of v) = [HttpGet "http://localhost:8000/health"] /\
  deps (hooks_of v) = [] /\
  initial (hooks_of v) = mkState JNull true /\
  (forall res, on_fulfilled (hooks_of v) res =
               [SetHealthStatus (data res); SetLoading false]) /\
  (forall e, on_rejected (hooks_of v) e =
             [SetHealthStatus
                (JObj [("status", JStr "offline");
                       ("message", JStr "Backend not running")]);
              SetLoading false]).
Proof.
  destruct v; repeat split.
Qed.

Lemma page_lifecycle_cases (v : Variant) (evs : list Event) (w : World) (t : list Action) :
  lifecycle (hooks_of v) evs = Some (w, t) ->
  (w = mkWorld (mkState JNull true) (Some []) 1 /\
   t = [HttpGet "http://localhost:8000/health"]) \/
  (exists s, In (Settle s) evs /\
             w = mkWorld (mkState (stored_value offline_value s) false) (Some []) 0 /\
             t = [HttpGet "http://localhost:8000/health";
                  SetHealthStatus (stored_value offline_value s); SetLoading false]).
Proof.
  destruct (hooks_shape v) as (He & Hd & Hi & Hf & Hr).
  exact (lifecycle_cases (hooks_of v) _ offline_value He Hd Hi Hf Hr evs w t).
Qed.

Lemma page_lifecycle_requests (v : Variant) (evs : list Event) (w : World) (t : list Action) :
  lifecycle (hooks_of v) evs = Some (w, t) ->
  requests t = ["http://localhost:8000/health"].
Proof.
  destruct (hooks_shape v) as (He & Hd & Hi & Hf & Hr).
  exact (lifecycle_requests (hooks_of v) _ offline_value He Hd Hi Hf Hr evs w t).
Qed.

Lemma page_lifecycle_rerenders (v : Variant) (n : nat) :
  lifecycle (hooks_of v) (repeat Rerender n) =
  Some (mkWorld (mkState JNull true) (Some []) 1,
        [HttpGet "http://localhost:8000/health"]).
Proof.
  destruct (hooks_shape v) as (He & Hd & Hi & Hf & Hr).
  exact (lifecycle_rerenders (hooks_of v) _ He Hd Hi n).
Qed.

(** ** Closed form of a page view *)

Lemma page_step_rerender (v : Variant) (st : State) (n : nat) :
  step (hooks_of v) (mkWorld st (Some []) n) Rerender
  = Some (mkWorld st (Some []) n, []).
Proof.
  destruct v; reflexivity.
Qed.

Lemma page_step_settle (v : Variant) (st : State) (n : nat) (s : Settlement) :
  step (hooks_of v) (mkWorld st (Some []) (S n)) (Settle s)
  = Some (mkWorld (mkState (stored_value offline_value s) false) (Some []) n,
          [SetHealthStatus (stored_value offline_value s); SetLoading false]).
Proof.
  destruct v, s; reflexivity.
Qed.

Lemma run_settled_form (v : Variant) (st : State) (evs : list Event) :
  run (hooks_of v) (mkWorld st (Some []) 0) evs =
  match settlements evs with
  | [] => Some (mkWorld st (Some []) 0, [])
  | _ :: _ => None
  end.
Proof.
  induction evs as [| [| s] rest IH]; [reflexivity | |].
  - cbn [run settlements]. rewrite page_step_rerender, IH.
    destruct (settlements rest); reflexivity.
  - destruct v; reflexivity.
Qed.

Lemma run_waiting_form (v : Variant) (st : State) (evs : list Event) :
  run (hooks_of v) (mkWorld st (Some []) 1) evs =
  match settlements evs with
  | [] => Some (mkWorld st (Some []) 1, [])
  | [s] =>
      Some (mkWorld (mkState (stored_value offline_value s) false) (Some []) 0,
            [SetHealthStatus (stored_value offline_value s); SetLoading false])
  | _ :: _ :: _ => None
  end.
Proof.
  induction evs as [| [| s] rest IH]; [reflexivity | |].
  - cbn [run settlements]. rewrite page_step_rerender, IH.
    destruct (settlements rest) as [| s1 [| s2 more]]; reflexivity.
  - cbn [run settlements]. rewrite page_step_settle, run_settled_form.
    destruct (settlements rest); reflexivity.
Qed.

Lemma lifecycle_form (v : Variant) (evs : list Event) :
  lifecycle (hooks_of v) evs =
  match settlements evs with
  | [] =>
      Some (mkWorld (mkState JNull true) (Some []) 1,
            [HttpGet "http://localhost:8000/health"])
  | [s] =>
      Some (mkWorld (mkState (stored_value offline_value s) false) (Some []) 0,
            [HttpGet "http://localhost:8000/health";
             SetHealthStatus (stored_value offline_value s); SetLoading false])
  | _ :: _ :: _ => None
  end.
Proof.
  unfold lifecycle.
  assert (Hm : mount (hooks_of v)
               = (mkWorld (mkState JNull true) (Some []) 1,
                  [HttpGet "http://localhost:8000/health"]))
    by (destruct v; reflexivity).
  rewrite Hm, run_waiting_form.
  destruct (settlements evs) as [| s1 [| s2 more]]; reflexivity.
Qed.

(** ** Page views under any runtime *)

Lemma requests_app (a b : list Action) :
  requests (a ++ b) = (requests a ++ requests b)%list.
Proof.
  induction a as [| [url | x | l] a IH]; simpl; [reflexivity | | |]; now rewrite IH.
Qed.

Lemma writes_app (a b : list Action) :
  writes (a ++ b) = (writes a ++ writes b)%list.
Proof.
  induction a as [| [url | x | l] a IH]; simpl; [reflexivity | | |]; now rewrite IH.
Qed.

Lemma requests_of_gets (url : string) (n : nat) :
  requests (repeat (HttpGet url) n) = repeat url n /\
  writes (repeat (HttpGet url) n) = [].
Proof.
  induction n as [| n [IH1 IH2]]; simpl; [auto |]. now rewrite IH1, IH2.
Qed.

Lemma callback_calls_trace (ss : list Settlement) :
  requests (callback_calls ss) = [] /\
  writes (callback_calls ss) = map (stored_value offline_value) ss.
Proof.
  induction ss as [| s ss [IH1 IH2]]; simpl; [auto |]. now rewrite IH1, IH2.
Qed.

Lemma last_cons (A : Type) (a d : A) (l : list A) :
  last (a :: l) d = last l a.
Proof.
  revert a d. induction l as [| b l IH]; intros a d; [reflexivity |].
  change (last (a :: b :: l) d) with (last (b :: l) d).
  now rewrite (IH b d), (IH b a).
Qed.

Lemma settle_all_health (st : State) (ss : list Settlement) :
  healthStatus (settle_all st ss)
  = last (map (stored_value offline_value) ss) (healthStatus st).
Proof.
  revert st. induction ss as [| s ss IH]; intros st; [reflexivity |].
  cbn [settle_all map]. rewrite IH, last_cons. reflexivity.
Qed.

Lemma settle_all_loading (st : State) (ss : list Settlement) :
  loading (settle_all st ss) = match ss with [] => loading st | _ :: _ => false end.
Proof.
  revert st. induction ss as [| s ss IH]; intros st; [reflexivity |].
  cbn [settle_all]. rewrite IH. destruct ss; reflexivity.
Qed.

Lemma settle_all_snoc (st : State) (ss : list Settlement) (s : Settlement) :
  settle_all st (ss ++ [s]) = mkState (stored_value offline_value s) false.
Proof.
  revert st. induction ss as [| s0 ss IH]; intros st; [reflexivity |].
  cbn [settle_all app]. apply IH.
Qed.

(** From a committed world with [n] pending promises, a run is the delivery
    of its settlements, as long as there are promises for them. *)
Lemma run_form (v : Variant) (evs : list Event) (st : State) (n : nat) :
  run (hooks_of v) (mkWorld st (Some []) n) evs =
  if Nat.leb (length (settlements evs)) (n)
  then Some (mkWorld (settle_all st (settlements evs)) (Some [])
               (n - length (settlements evs)),
             callback_calls (settlements evs))
  else None.
Proof.
  revert st n. induction evs as [| [| s] rest IH]; intros st n.
  - cbn [run settlements length settle_all callback_calls Nat.leb].
    now rewrite Nat.sub_0_r.
  - cbn [run settlements]. rewrite page_step_rerender, IH.
    destruct (Nat.leb (length (settlements rest)) (n)); reflexivity.
  - cbn [run settlements length]. destruct n as [| n].
    + destruct v; reflexivity.
    + rewrite page_step_settle, IH.
      cbn [Nat.leb Nat.sub settle_all callback_calls].
      destruct (Nat.leb (length (settlements rest)) (n)); reflexivity.
Qed.

Lemma mount_in_value (v : Variant) (r : Runtime) :
  mount_in r (hooks_of v)
  = (mkWorld (mkState JNull true) (Some []) (effect_runs r),
     repeat (HttpGet "http://localhost:8000/health") (effect_runs r)).
Proof.
  unfold mount_in, effect_runs. destruct v, (double_invoke r); reflexivity.
Qed.

Lemma page_view_form (v : Variant) (r : Runtime) (evs : list Event) :
  page_view r (hooks_of v) evs =
  if Nat.leb (length (settlements evs)) (effect_runs r)
  then Some (mkWorld (settle_all (mkState JNull true) (settlements evs)) (Some [])
               (effect_runs r - length (settlements evs)),
             (repeat (HttpGet "http://localhost:8000/health") (effect_runs r)
              ++ callback_calls (settlements evs))%list)
  else None.
Proof.
  unfold page_view. rewrite mount_in_value, run_form.
  destruct (Nat.leb (length (settlements evs)) (effect_runs r)); reflexivity.
Qed.

Lemma page_view_trace (v : Variant) (r : Runtime) (evs : list Event)
  (w : World) (t : list Action) :
  page_view r (hooks_of v) evs = Some (w, t) ->
  length (settlements evs) <= effect_runs r /\
  w = mkWorld (settle_all (mkState JNull true) (settlements evs)) (Some [])
        (effect_runs r - length (settlements evs)) /\
  requests t = repeat "http://localhost:8000/health" (effect_runs r) /\
  writes t = map (stored_value offline_value) (settlements evs).
Proof.
  rewrite page_view_form.
  destruct (Nat.leb (length (settlements evs)) (effect_runs r)) eqn:Hle; [| discriminate].
  intros H. injection H as <- <-. apply Nat.leb_le in Hle.
  rewrite requests_app, writes_app.
  destruct (requests_of_gets "http://localhost:8000/health" (effect_runs r)) as [-> ->].
  destruct (callback_calls_trace (settlements evs)) as [-> ->].
  rewrite app_nil_r. auto.
Qed.

Lemma effect_runs_cases (r : Runtime) :
  (effect_runs r = 1 /\ (build r = ProductionBuild \/ strict_mode r = false)) \/
  (effect_runs r = 2 /\ build r = DevelopmentBuild /\ strict_mode r = true).
Proof.
  unfold effect_runs, double_invoke. destruct r as [[] []]; simpl; auto.
Qed.

(** ** Badge text *)

(** C1 (amended): in both pages the badge text is a function of the display
    state alone.  While loading it is "Connecting..."; once resolved it is
    "🟢 Backend Connected" when the stored status is exactly "healthy" and
    "🔴 Backend Offline" otherwise; no fourth text exists. *)
Theorem badge_text_by_state :
  forall (v : Variant) (st : State),
    text_of v st =
      Ok (if loading st then "Connecting..."
          else if reports_healthy (healthStatus st)
               then "🟢 Backend Connected" else "🔴 Backend Offline")
    /\ In (text_of v st)
          [Ok "Connecting..."; Ok "🟢 Backend Connected"; Ok "🔴 Backend Offline"].
Proof.
  intros v st. rewrite text_of_value. split; [reflexivity |].
  destruct (loading st); [simpl; auto |].
  destruct (reports_healthy (healthStatus st)); simpl; auto.
Qed.

(** C1, the claim as worded: on a resolved healthy state neither page shows
    the bare words "Backend Connected"; the text starts with the green
    circle emoji. *)
Lemma badge_text_not_bare_words :
  let st := mkState (JObj [("status", JStr "healthy")]) false in
  documented_badge_text st = "Backend Connected" /\
  text_of NextPage st = Ok "🟢 Backend Connected" /\
  text_of VitePage st = Ok "🟢 Backend Connected" /\
  text_of NextPage st <> Ok (documented_badge_text st) /\
  text_of VitePage st <> Ok (documented_badge_text st).
Proof.
  cbv zeta. repeat split; try reflexivity; vm_compute; discriminate.
Qed.

(** ** Failure path *)

(** C2: when the request promise rejects, whatever the cause, the stored
    value has status "offline" and message "Backend not running", loading
    is false, and the badge is in the negative style, in both pages. *)
Theorem rejection_resolves_offline :
  forall (v : Variant) (w w' : World) (e : Rejection) (t : list Action),
    step (hooks_of v) w (Settle (Rejected e)) = Some (w', t) ->
    member (healthStatus (w_state w')) "status" = Ok (JStr "offline") /\
    member (healthStatus (w_state w')) "message" = Ok (JStr "Backend not running") /\
    loading (w_state w') = false /\
    visual_of v (w_state w') = Ok (Some Negative).
Proof.
  intros v w w' e t Hstep.
  assert (Hst : w_state w' = mkState offline_value false).
  { destruct v; unfold step in Hstep; destruct (w_pending w); try discriminate;
      simpl in Hstep; unfold commit in Hstep; simpl in Hstep;
      destruct (effect_due (w_deps w) []); inversion Hstep; reflexivity. }
  rewrite Hst. repeat split; try reflexivity.
  rewrite resolved_visual_value by reflexivity. reflexivity.
Qed.

Lemma rejection_resolves_offline_witness :
  let w0 := fst (mount Home.hooks) in
  let w1 := mkWorld (mkState offline_value false) (Some []) 0 in
  step (hooks_of NextPage) w0 (Settle (Rejected (NetworkError "ECONNREFUSED")))
    = Some (w1, [SetHealthStatus offline_value; SetLoading false]) /\
  member (healthStatus (w_state w1)) "status" = Ok (JStr "offline") /\
  member (healthStatus (w_state w1)) "message" = Ok (JStr "Backend not running") /\
  loading (w_state w1) = false /\
  visual_of NextPage (w_state w1) = Ok (Some Negative).
Proof.
  cbv zeta. split; [reflexivity |].
  apply (rejection_resolves_offline NextPage (fst (mount Home.hooks)) _
           (NetworkError "ECONNREFUSED")
           [SetHealthStatus offline_value; SetLoading false]).
  reflexivity.
Defined.

(** ** Requests *)

Lemma settlements_of_rerenders (n : nat) :
  settlements (repeat Rerender n) = [].
Proof.
  induction n as [| n IH]; [reflexivity | exact IH].
Qed.

(** C3 (amended): every run of the mount effect issues exactly one GET, to
    http://localhost:8000/health, and neither a re-render nor a settlement
    issues another, in both pages.  The effect runs once per mount in a
    production build and whenever StrictMode is off, and twice in a
    development build under StrictMode; the trace of a page view holds one
    GET per run and nothing more. *)
Theorem one_request_per_effect_run :
  forall (v : Variant) (r : Runtime),
    effect_runs r = match build r with
                    | ProductionBuild => 1
                    | DevelopmentBuild => if strict_mode r then 2 else 1
                    end /\
    (forall n : nat,
        page_view r (hooks_of v) (repeat Rerender n)
        = Some (mkWorld (mkState JNull true) (Some []) (effect_runs r),
                repeat (HttpGet "http://localhost:8000/health") (effect_runs r))) /\
    (forall (evs : list Event) (w : World) (t : list Action),
        page_view r (hooks_of v) evs = Some (w, t) ->
        requests t = repeat "http://localhost:8000/health" (effect_runs r)).
Proof.
  intros v r. split; [| split].
  - unfold effect_runs, double_invoke. destruct (build r), (strict_mode r); reflexivity.
  - intros n. rewrite page_view_form, settlements_of_rerenders.
    cbn [length Nat.leb settle_all callback_calls].
    now rewrite Nat.sub_0_r, app_nil_r.
  - intros evs w t H. now destruct (page_view_trace v r evs w t H) as (_ & _ & Hr & _).
Qed.

Lemma one_request_per_effect_run_witness :
  let r := mkRuntime ProductionBuild true in
  let evs := [Rerender;
              Settle (Fulfilled (mkResponse (JObj [("status", JStr "healthy")]) 200));
              Rerender; Rerender] in
  let w := mkWorld (mkState (JObj [("status", JStr "healthy")]) false) (Some []) 0 in
  let t := [HttpGet "http://localhost:8000/health";
            SetHealthStatus (JObj [("status", JStr "healthy")]);
            SetLoading false] in
  page_view r (hooks_of VitePage) evs = Some (w, t) /\
  requests t = repeat "http://localhost:8000/health" (effect_runs r) /\
  effect_runs r = 1.
Proof.
  cbv zeta. split; [reflexivity |]. split; [| reflexivity].
  apply (proj2 (proj2 (one_request_per_effect_run VitePage
                         (mkRuntime ProductionBuild true)))
           [Rerender;
            Settle (Fulfilled (mkResponse (JObj [("status", JStr "healthy")]) 200));
            Rerender; Rerender]
           (mkWorld (mkState (JObj [("status", JStr "healthy")]) false) (Some []) 0)).
  reflexivity.
Defined.

(** C3, the claim as worded: the development build of the Vite page, whose
    root is in StrictMode, sends two GETs for one mount. *)
Lemma strict_mode_doubles_the_request :
  Main.strict_root = true /\
  page_view vite_dev App.hooks []
  = Some (mkWorld (mkState JNull true) (Some []) 2,
          [HttpGet "http://localhost:8000/health";
           HttpGet "http://localhost:8000/health"]) /\
  requests [HttpGet "http://localhost:8000/health";
            HttpGet "http://localhost:8000/health"]
  <> ["http://localhost:8000/health"].
Proof.
  split; [reflexivity |]. split; [reflexivity |]. simpl. discriminate.
Qed.

(** ** Loading appearance *)

(** C4: at mount (loading, nothing stored) both pages show "Connecting...".
    The Tailwind page gives the badge its muted, neutral classes; the MUI
    page computes the chip colours from the stored status alone, so its
    chip is in the error colour while loading. *)
Theorem loading_badge_appearance :
  let st := w_state (fst (mount App.hooks)) in
  st = mkState JNull true /\
  text_of NextPage st = Ok "Connecting..." /\
  text_of VitePage st = Ok "Connecting..." /\
  visual_of NextPage st = Ok (Some Neutral) /\
  App.render st = Ok (App.mkChip "Connecting..." "error.main" "error.main") /\
  visual_of VitePage st = Ok (Some Negative).
Proof.
  cbv zeta. repeat split.
Qed.

(** ** The optional message field *)

(** C5 (amended): after a rejection the stored value always carries the
    message field; after a successful response it carries one exactly when
    the response body does, because the body is stored as it is. *)
Theorem message_field_follows_body :
  forall (v : Variant) (s : Settlement),
    option_map (fun st => has_field (healthStatus st) "message") (resolved_state v s)
    = Some (match s with
            | Fulfilled res => has_field (data res) "message"
            | Rejected _ => true
            end).
Proof.
  intros v s. destruct v, s; reflexivity.
Qed.

(** C5, the claim as worded: a successful response whose body has a message
    field leaves that field in the stored state. *)
Lemma successful_body_keeps_message :
  let body := js_of_health (mkHealth "healthy" (Some "API is running")) in
  let s := Fulfilled (mkResponse body 200) in
  body = JObj [("status", JStr "healthy"); ("message", JStr "API is running")] /\
  resolved_state NextPage s = Some (mkState body false) /\
  resolved_state VitePage s = Some (mkState body false) /\
  has_field (healthStatus (mkState body false)) "message" = true.
Proof.
  cbv zeta. repeat split.
Qed.

(** ** The two pages compared *)

(** C6 (amended): the two pages agree on the health check.  On every display
    state they render the same badge text, and on every resolved state the
    same badge style; their request URL is the same literal; their failure
    callbacks store the same offline value; under the same runtime every
    page view goes through the same states with the same trace; and that
    trace holds one GET per run of the mount effect. *)
Theorem variants_agree_on_health_check :
  (forall st : State, text_of NextPage st = text_of VitePage st) /\
  (forall st : State,
      loading st = false -> visual_of NextPage st = visual_of VitePage st) /\
  (Home.health_url = "http://localhost:8000/health" /\
   App.health_url = "http://localhost:8000/health") /\
  (forall e : Rejection,
      on_rejected Home.hooks e = [SetHealthStatus offline_value; SetLoading false] /\
      on_rejected App.hooks e = [SetHealthStatus offline_value; SetLoading false]) /\
  (forall res : AxiosResponse,
      on_fulfilled Home.hooks res = on_fulfilled App.hooks res) /\
  (forall (r : Runtime) (evs : list Event),
      page_view r Home.hooks evs = page_view r App.hooks evs) /\
  (forall (v : Variant) (r : Runtime) (evs : list Event) (w : World) (t : list Action),
      page_view r (hooks_of v) evs = Some (w, t) ->
      requests t = repeat "http://localhost:8000/health" (effect_runs r)).
Proof.
  split; [| split; [| split; [| split; [| split; [| split]]]]].
  - intros st. now rewrite !text_of_value.
  - intros st Hl. now rewrite !resolved_visual_value.
  - split; reflexivity.
  - intros e. split; reflexivity.
  - intros res. reflexivity.
  - intros r evs.
    change Home.hooks with (hooks_of NextPage).
    change App.hooks with (hooks_of VitePage).
    now rewrite !page_view_form.
  - intros v r evs w t H.
    now destruct (page_view_trace v r evs w t H) as (_ & _ & Hr & _).
Qed.

Lemma variants_agree_on_health_check_witness :
  let st := mkState (JObj [("status", JStr "degraded")]) false in
  let r := mkRuntime DevelopmentBuild false in
  let evs := [Settle (Rejected (BadStatus 503 JNull)); Rerender] in
  let w := mkWorld (mkState offline_value false) (Some []) 0 in
  let t := [HttpGet "http://localhost:8000/health";
            SetHealthStatus offline_value; SetLoading false] in
  loading st = false /\
  visual_of NextPage st = visual_of VitePage st /\
  page_view r (hooks_of NextPage) evs = Some (w, t) /\
  requests t = repeat "http://localhost:8000/health" (effect_runs r).
Proof.
  cbv zeta.
  pose proof variants_agree_on_health_check as (_ & Hvis & _ & _ & _ & _ & Hreq).
  split; [reflexivity |].
  split; [apply (Hvis (mkState (JObj [("status", JStr "degraded")]) false)); reflexivity |].
  split; [reflexivity |].
  apply (Hreq NextPage (mkRuntime DevelopmentBuild false)
           [Settle (Rejected (BadStatus 503 JNull)); Rerender]
           (mkWorld (mkState offline_value false) (Some []) 0)).
  reflexivity.
Defined.

(** C6, the claim as worded: the pages are not equivalent.  At the mount
    state the Tailwind badge is neutral and the MUI chip is in the error
    colour, and on any state the button text (the thirteenth text) differs. *)
Lemma variants_differ_in_appearance :
  let st := mkState JNull true in
  visual_of NextPage st = Ok (Some Neutral) /\
  visual_of VitePage st = Ok (Some Negative) /\
  visual_of NextPage st <> visual_of VitePage st /\
  (x <- page_texts NextPage st ;; Ok (nth 12 x "")) = Ok "🚀 Start Your Evolution" /\
  (x <- page_texts VitePage st ;; Ok (nth 12 x "")) = Ok "Start Your Evolution" /\
  page_texts NextPage st <> page_texts VitePage st.
Proof.
  cbv zeta. repeat split; try reflexivity; vm_compute; discriminate.
Qed.

(** ** The rejection value *)





(** ** Lifetime of the stored value *)

Lemma page_run_settled (v : Variant) (evs : list Event) (st : State)
  (w : World) (t : list Action) :
  run (hooks_of v) (mkWorld st (Some []) 0) evs = Some (w, t) ->
  w = mkWorld st (Some []) 0 /\ t = [].
Proof.
  destruct (hooks_shape v) as (_ & Hd & _).
  exact (run_settled (hooks_of v) Hd evs st w t).
Qed.

(** C8 (amended): the stored value is null, with loading true, at mount, in
    every runtime.  Every settlement delivered to a page view replaces it,
    by the body of the response or by the offline value: the writes of the
    trace are exactly the stored values of the settlements, in order, the
    state holds the last of them and loading is false from the first one
    on.  There are never more writes than runs of the mount effect; with a
    single run (production build, or no StrictMode) that is at most one
    write, after which no event changes the state or writes again. *)
Theorem health_status_replaced_per_settlement :
  forall (v : Variant) (r : Runtime),
    (w_state (fst (mount_in r (hooks_of v))) = mkState JNull true /\
     writes (snd (mount_in r (hooks_of v))) = []) /\
    (forall (evs : list Event) (w : World) (t : list Action),
        page_view r (hooks_of v) evs = Some (w, t) ->
        writes t = map (stored_value offline_value) (settlements evs) /\
        length (writes t) <= effect_runs r /\
        healthStatus (w_state w) = last (writes t) JNull /\
        loading (w_state w) = match writes t with [] => true | _ :: _ => false end /\
        (effect_runs r = 1 ->
         length (writes t) = 1 ->
         forall (evs' : list Event) (w' : World) (t' : list Action),
           run (hooks_of v) w evs' = Some (w', t') ->
           w_state w' = w_state w /\ writes t' = [])).
Proof.
  intros v r. split.
  - rewrite mount_in_value. cbn [fst snd w_state]. split; [reflexivity |].
    apply requests_of_gets.
  - intros evs w t H.
    destruct (page_view_trace v r evs w t H) as (Hle & -> & _ & Hw).
    rewrite Hw. split; [reflexivity |].
    split; [now rewrite length_map |].
    cbn [w_state]. split; [apply settle_all_health |].
    split.
    + rewrite settle_all_loading. destruct (settlements evs); reflexivity.
    + intros Hone Hlen evs' w' t' Hrun.
      rewrite length_map in Hlen. rewrite Hone, Hlen in Hrun.
      cbn [Nat.sub] in Hrun.
      destruct (page_run_settled v evs' _ w' t' Hrun) as [-> ->].
      split; reflexivity.
Qed.

Lemma health_status_replaced_per_settlement_witness :
  let r := mkRuntime ProductionBuild true in
  let evs := [Rerender; Settle (Rejected (NetworkError "ETIMEDOUT")); Rerender] in
  let w := mkWorld (mkState offline_value false) (Some []) 0 in
  let t := [HttpGet "http://localhost:8000/health";
            SetHealthStatus offline_value; SetLoading false] in
  page_view r (hooks_of VitePage) evs = Some (w, t) /\
  effect_runs r = 1 /\
  length (writes t) = 1 /\
  run (hooks_of VitePage) w [Rerender; Rerender] = Some (w, []) /\
  writes t = map (stored_value offline_value) (settlements evs) /\
  length (writes t) <= effect_runs r /\
  healthStatus (w_state w) = last (writes t) JNull /\
  loading (w_state w) = false /\
  (w_state w = w_state w /\ writes [] = []).
Proof.
  cbv zeta.
  pose proof (proj2 (health_status_replaced_per_settlement VitePage
                       (mkRuntime ProductionBuild true))
                [Rerender; Settle (Rejected (NetworkError "ETIMEDOUT")); Rerender]
                (mkWorld (mkState offline_value false) (Some []) 0)
                [HttpGet "http://localhost:8000/health";
                 SetHealthStatus offline_value; SetLoading false]
                eq_refl) as (Hw & Hle & Hlast & Hload & Hafter).
  split; [reflexivity |]. split; [reflexivity |]. split; [reflexivity |].
  split; [reflexivity |]. split; [exact Hw |]. split; [exact Hle |].
  split; [exact Hlast |]. split; [exact Hload |].
  exact (Hafter eq_refl eq_refl [Rerender; Rerender]
           (mkWorld (mkState offline_value false) (Some []) 0) [] eq_refl).
Defined.

(** C8, the claim as worded: in the development build of the Vite page the
    effect has run twice, so two settlements are delivered in one page view
    and the stored value is written twice, the second write changing it. *)
Lemma strict_mode_allows_second_write :
  let body := JObj [("status", JStr "healthy")] in
  let evs := [Settle (Rejected (NetworkError "ECONNREFUSED"));
              Settle (Fulfilled (mkResponse body 200))] in
  let t := [HttpGet "http://localhost:8000/health";
            HttpGet "http://localhost:8000/health";
            SetHealthStatus offline_value; SetLoading false;
            SetHealthStatus body; SetLoading false] in
  page_view vite_dev App.hooks evs
  = Some (mkWorld (mkState body false) (Some []) 0, t) /\
  writes t = [offline_value; body] /\
  ~ length (writes t) <= 1.
Proof.
  cbv zeta. split; [reflexivity |]. split; [reflexivity |]. simpl. lia.
Qed.

(** ** Success path *)

(** C9: the success callback stores the response body as it is and clears
    loading, whatever the body; when the body has no status field, or one
    that is not exactly the string "healthy", both pages then render the
    negative "🔴 Backend Offline" badge. *)
Theorem success_body_stored_verbatim :
  forall (v : Variant) (w w' : World) (res : AxiosResponse) (t : list Action),
    step (hooks_of v) w (Settle (Fulfilled res)) = Some (w', t) ->
    w_state w' = mkState (data res) false /\
    writes t = [data res] /\
    (status_field (data res) <> Some (JStr "healthy") ->
     text_of v (w_state w') = Ok "🔴 Backend Offline" /\
     visual_of v (w_state w') = Ok (Some Negative)).
Proof.
  intros v w w' res t Hstep.
  assert (Hst : w_state w' = mkState (data res) false /\ writes t = [data res]).
  { destruct v; unfold step in Hstep; destruct (w_pending w); try discriminate;
      simpl in Hstep; unfold commit in Hstep; simpl in Hstep;
      destruct (effect_due (w_deps w) []); inversion Hstep; split; reflexivity. }
  destruct Hst as [Hst Hw]. rewrite Hst.
  split; [reflexivity |]. split; [exact Hw |].
  intros Hne. apply not_healthy_iff in Hne. split.
  - rewrite text_of_value. simpl. now rewrite Hne.
  - rewrite resolved_visual_value by reflexivity. simpl. now rewrite Hne.
Qed.

Lemma success_body_stored_verbatim_witness :
  let body := JObj [("status", JStr "degraded")] in
  let w0 := fst (mount App.hooks) in
  let w1 := mkWorld (mkState body false) (Some []) 0 in
  let t := [SetHealthStatus body; SetLoading false] in
  step (hooks_of VitePage) w0 (Settle (Fulfilled (mkResponse body 200))) = Some (w1, t) /\
  status_field body <> Some (JStr "healthy") /\
  w_state w1 = mkState body false /\
  writes t = [body] /\
  text_of VitePage (w_state w1) = Ok "🔴 Backend Offline" /\
  visual_of VitePage (w_state w1) = Ok (Some Negative).
Proof.
  cbv zeta.
  assert (Hne : status_field (JObj [("status", JStr "degraded")])
                <> Some (JStr "healthy")) by (vm_compute; discriminate).
  pose proof (success_body_stored_verbatim VitePage (fst (mount App.hooks))
                (mkWorld (mkState (JObj [("status", JStr "degraded")]) false) (Some []) 0)
                (mkResponse (JObj [("status", JStr "degraded")]) 200)
                [SetHealthStatus (JObj [("status", JStr "degraded")]); SetLoading false]
                eq_refl) as (Hst & Hw & Hbadge).
  split; [reflexivity |]. split; [exact Hne |].
  split; [exact Hst |]. split; [exact Hw |].
  exact (Hbadge Hne).
Defined.

(** ** Totality of rendering *)

(** C10: rendering never throws.  Every state, in both pages, yields a
    badge with a text and a recognised style; in particular the state with
    loading false and a null stored value yields the negative
    "🔴 Backend Offline" badge, because the optional chain gives undefined
    where the plain member access would throw. *)
Theorem badge_render_total :
  (forall st : State, exists b, Home.render st = Ok b) /\
  (forall st : State, exists c, App.render st = Ok c) /\
  (forall (v : Variant) (st : State),
      exists txt vis, text_of v st = Ok txt /\ visual_of v st = Ok (Some vis)) /\
  (forall v : Variant,
      text_of v (mkState JNull false) = Ok "🔴 Backend Offline" /\
      visual_of v (mkState JNull false) = Ok (Some Negative)) /\
  opt_member JNull "status" = Ok JUndefined /\
  member JNull "status" = TypeError "Cannot read properties of null".
Proof.
  split; [| split; [| split; [| split; [| split]]]].
  - intros st. unfold Home.render.
    rewrite home_class_value, home_text_value. eexists. reflexivity.
  - intros st. unfold App.render.
    rewrite app_label_value, app_colour_value. eexists. reflexivity.
  - intros v st. rewrite text_of_value. destruct v.
    + rewrite home_visual_value. eexists. eexists. split; reflexivity.
    + rewrite app_visual_value. eexists. eexists. split; reflexivity.
  - intros v. destruct v; split; reflexivity.
  - reflexivity.
  - reflexivity.
Qed.

(** * Further properties of the pages *)

(** X2: re-renders never matter.  Two event lists that deliver the same
    settlements lead to the same state and the same trace, however many
    re-renders each contains and wherever they fall. *)
Theorem rerenders_are_irrelevant :
  forall (v : Variant) (evs1 evs2 : list Event),
    settlements evs1 = settlements evs2 ->
    lifecycle (hooks_of v) evs1 = lifecycle (hooks_of v) evs2.
Proof.
  intros v evs1 evs2 H. rewrite !lifecycle_form, H. reflexivity.
Qed.

Lemma rerenders_are_irrelevant_witness :
  let s := Settle (Fulfilled (mkResponse (JObj [("status", JStr "healthy")]) 200)) in
  settlements [Rerender; s; Rerender; Rerender] = settlements [s] /\
  lifecycle (hooks_of NextPage) [Rerender; s; Rerender; Rerender]
  = lifecycle (hooks_of NextPage) [s].
Proof.
  cbv zeta. split; [reflexivity |].
  apply (rerenders_are_irrelevant NextPage). reflexivity.
Defined.

(** X3: in every reachable world of a page view, under any runtime, the
    writes made and the requests still pending add up to the number of
    effect runs.  Loading is true exactly while no settlement has been
    delivered, and then nothing is stored and every request is pending.
    With a single effect run, loading is true exactly while the request is
    pending. *)
Theorem loading_until_first_settlement :
  forall (v : Variant) (r : Runtime) (evs : list Event) (w : World) (t : list Action),
    page_view r (hooks_of v) evs = Some (w, t) ->
    length (writes t) + w_pending w = effect_runs r /\
    (loading (w_state w) = true <-> settlements evs = []) /\
    (loading (w_state w) = true ->
     healthStatus (w_state w) = JNull /\ w_pending w = effect_runs r) /\
    (effect_runs r = 1 -> (loading (w_state w) = true <-> w_pending w = 1)).
Proof.
  intros v r evs w t H.
  destruct (page_view_trace v r evs w t H) as (Hle & -> & _ & Hw).
  rewrite Hw, length_map. cbn [w_state w_pending].
  rewrite settle_all_loading.
  destruct (settlements evs) as [| s ss] eqn:Hss.
  - cbn [length settle_all healthStatus loading]. rewrite Nat.sub_0_r.
    repeat split; auto.
  - split; [lia |]. split; [split; discriminate |].
    split; [discriminate |].
    intros Hone. split; [discriminate |]. cbn [length] in *. lia.
Qed.

Lemma loading_until_first_settlement_witness :
  let evs := [Settle (Rejected (NetworkError "ENOTFOUND")); Rerender] in
  let w := mkWorld (mkState offline_value false) (Some []) 1 in
  let t := [HttpGet "http://localhost:8000/health";
            HttpGet "http://localhost:8000/health";
            SetHealthStatus offline_value; SetLoading false] in
  page_view vite_dev (hooks_of VitePage) evs = Some (w, t) /\
  length (writes t) + w_pending w = effect_runs vite_dev /\
  (loading (w_state w) = true <-> settlements evs = []) /\
  (loading (w_state w) = true ->
   healthStatus (w_state w) = JNull /\ w_pending w = effect_runs vite_dev) /\
  (effect_runs vite_dev = 1 -> (loading (w_state w) = true <-> w_pending w = 1)).
Proof.
  cbv zeta. split; [reflexivity |].
  apply (loading_until_first_settlement VitePage vite_dev
           [Settle (Rejected (NetworkError "ENOTFOUND")); Rerender]).
  reflexivity.
Defined.

(** X4: the state with loading false and a null stored value is reachable.
    Under any runtime a page view is in it exactly when the last settlement
    delivered so far is a successful response whose body is null. *)
Theorem null_resolved_state_iff :
  forall (v : Variant) (r : Runtime) (evs : list Event) (w : World) (t : list Action),
    page_view r (hooks_of v) evs = Some (w, t) ->
    (w_state w = mkState JNull false <->
     exists earlier res,
       settlements evs = (earlier ++ [Fulfilled res])%list /\ data res = JNull).
Proof.
  intros v r evs w t H.
  destruct (page_view_trace v r evs w t H) as (_ & -> & _ & _).
  cbn [w_state].
  destruct (settlements evs) as [| s0 ss0].
  - cbn [settle_all]. split; [discriminate |].
    intros (earlier & res & Heq & _). now destruct earlier.
  - destruct (@exists_last _ (s0 :: ss0)) as (l & x & ->); [discriminate |].
    rewrite settle_all_snoc. split.
    + intros Hst. destruct x as [res | e]; cbn [stored_value] in Hst.
      * injection Hst as Hd. exists l, res. auto.
      * discriminate.
    + intros (earlier & res & Heq & Hd).
      apply app_inj_tail in Heq. destruct Heq as [_ ->].
      cbn [stored_value]. now rewrite Hd.
Qed.

Lemma null_resolved_state_iff_witness :
  let evs := [Settle (Rejected (NetworkError "ECONNRESET"));
              Settle (Fulfilled (mkResponse JNull 200)); Rerender] in
  let w := mkWorld (mkState JNull false) (Some []) 0 in
  page_view vite_dev (hooks_of VitePage) evs
  = Some (w, [HttpGet "http://localhost:8000/health";
              HttpGet "http://localhost:8000/health";
              SetHealthStatus offline_value; SetLoading false;
              SetHealthStatus JNull; SetLoading false]) /\
  (w_state w = mkState JNull false <->
   exists earlier res,
     settlements evs = (earlier ++ [Fulfilled res])%list /\ data res = JNull).
Proof.
  cbv zeta. split; [reflexivity |].
  apply (null_resolved_state_iff VitePage vite_dev
           [Settle (Rejected (NetworkError "ECONNRESET"));
            Settle (Fulfilled (mkResponse JNull 200)); Rerender] _
           [HttpGet "http://localhost:8000/health";
            HttpGet "http://localhost:8000/health";
            SetHealthStatus offline_value; SetLoading false;
            SetHealthStatus JNull; SetLoading false]).
  reflexivity.
Defined.

(** ** Rendering *)

(** X5: the colour of the badge and its text agree: neutral goes with
    "Connecting...", positive with "🟢 Backend Connected", negative with
    "🔴 Backend Offline".  This holds in every state of the Tailwind page,
    and in every state of the MUI page in which loading is false. *)
Theorem badge_style_matches_text :
  forall (v : Variant) (st : State),
    v = NextPage \/ loading st = false ->
    exists txt vis,
      text_of v st = Ok txt /\
      visual_of v st = Ok (Some vis) /\
      (vis = Neutral <-> txt = "Connecting...") /\
      (vis = Positive <-> txt = "🟢 Backend Connected") /\
      (vis = Negative <-> txt = "🔴 Backend Offline").
Proof.
  intros v st Hcase.
  assert (Hvis : visual_of v st =
                 Ok (Some (if loading st then Neutral
                           else if reports_healthy (healthStatus st)
                                then Positive else Negative))).
  { destruct Hcase as [-> | Hl].
    - apply home_visual_value.
    - rewrite (resolved_visual_value v st Hl), Hl. reflexivity. }
  rewrite text_of_value, Hvis.
  destruct (loading st); [| destruct (reports_healthy (healthStatus st))];
    eexists; eexists; (split; [reflexivity |]); (split; [reflexivity |]);
    repeat split; intros H; try reflexivity; discriminate.
Qed.

Lemma badge_style_matches_text_witness :
  let st := mkState (JObj [("status", JStr "healthy")]) false in
  (VitePage = NextPage \/ loading st = false) /\
  exists txt vis,
    text_of VitePage st = Ok txt /\
    visual_of VitePage st = Ok (Some vis) /\
    (vis = Neutral <-> txt = "Connecting...") /\
    (vis = Positive <-> txt = "🟢 Backend Connected") /\
    (vis = Negative <-> txt = "🔴 Backend Offline").
Proof.
  cbv zeta. split; [right; reflexivity |].
  apply (badge_style_matches_text VitePage
           (mkState (JObj [("status", JStr "healthy")]) false)).
  right. reflexivity.
Defined.

(** X6: what is rendered depends on the stored value through its status
    field only.  Two stored values with the same status field (or both
    without one) give the same badge in both pages, whatever else they
    hold; so the message of the offline value is never shown. *)
Theorem badge_depends_on_status_only :
  forall (l : bool) (hs1 hs2 : JsValue),
    status_field hs1 = status_field hs2 ->
    Home.render (mkState hs1 l) = Home.render (mkState hs2 l) /\
    App.render (mkState hs1 l) = App.render (mkState hs2 l).
Proof.
  intros l hs1 hs2 H.
  assert (Hr : reports_healthy hs1 = reports_healthy hs2)
    by (unfold reports_healthy; now rewrite H).
  split.
  - unfold Home.render. rewrite !home_class_value, !home_text_value.
    simpl. now rewrite Hr.
  - unfold App.render. rewrite !app_label_value, !app_colour_value.
    simpl. now rewrite Hr.
Qed.

Lemma badge_depends_on_status_only_witness :
  let hs1 := offline_value in
  let hs2 := JObj [("status", JStr "offline"); ("message", JStr "maintenance");
                   ("version", JNum 3)] in
  status_field hs1 = status_field hs2 /\
  Home.render (mkState hs1 false) = Home.render (mkState hs2 false) /\
  App.render (mkState hs1 false) = App.render (mkState hs2 false).
Proof.
  cbv zeta. split; [reflexivity |].
  apply (badge_depends_on_status_only false). reflexivity.
Defined.

(** X7: each callback stores the value before it clears loading.  When its
    setter calls take effect one at a time, starting from a loading state,
    the page goes through exactly two states: first the new value with
    loading still true, which renders "Connecting..." (in the neutral style
    on the Tailwind page), then the new value with loading false. *)
Theorem setters_store_before_clearing_loading :
  forall (v : Variant) (s : Settlement) (w : World),
    loading (w_state w) = true ->
    states_during
      (then_catch (on_fulfilled (hooks_of v)) (on_rejected (hooks_of v)) s) w
    = [mkState (stored_value offline_value s) true;
       mkState (stored_value offline_value s) false] /\
    text_of v (mkState (stored_value offline_value s) true) = Ok "Connecting..." /\
    visual_of NextPage (mkState (stored_value offline_value s) true)
    = Ok (Some Neutral).
Proof.
  intros v s w Hl. split.
  - destruct v, s; simpl; rewrite Hl; reflexivity.
  - rewrite text_of_value, home_visual_value. split; reflexivity.
Qed.

Lemma setters_store_before_clearing_loading_witness :
  let body := JObj [("status", JStr "healthy")] in
  let s := Fulfilled (mkResponse body 200) in
  let w := fst (mount App.hooks) in
  loading (w_state w) = true /\
  states_during
    (then_catch (on_fulfilled (hooks_of VitePage)) (on_rejected (hooks_of VitePage)) s) w
  = [mkState body true; mkState body false] /\
  text_of VitePage (mkState body true) = Ok "Connecting..." /\
  visual_of NextPage (mkState body true) = Ok (Some Neutral).
Proof.
  cbv zeta. split; [reflexivity |].
  apply (setters_store_before_clearing_loading VitePage
           (Fulfilled (mkResponse (JObj [("status", JStr "healthy")]) 200))
           (fst (mount App.hooks))).
  reflexivity.
Defined.

(** X8: for a response body that has the shape of the `HealthStatus`
    interface, the resolved page shows the connected badge exactly when the
    status string is "healthy" (compared exactly, so case and surrounding
    blanks count); an accompanying message changes nothing. *)
Theorem typed_response_badge :
  forall (v : Variant) (h : HealthStatus) (code : Z),
    status_field (js_of_health h) = Some (JStr (status h)) /\
    resolved_state v (Fulfilled (mkResponse (js_of_health h) code))
    = Some (mkState (js_of_health h) false) /\
    text_of v (mkState (js_of_health h) false)
    = Ok (if String.eqb (status h) "healthy"
          then "🟢 Backend Connected" else "🔴 Backend Offline") /\
    visual_of v (mkState (js_of_health h) false)
    = Ok (Some (if String.eqb (status h) "healthy" then Positive else Negative)).
Proof.
  intros v [s m] code.
  assert (Hf : status_field (js_of_health (mkHealth s m)) = Some (JStr s))
    by reflexivity.
  assert (Hr : reports_healthy (js_of_health (mkHealth s m)) = String.eqb s "healthy")
    by (unfold reports_healthy; rewrite Hf; reflexivity).
  split; [exact Hf |]. split; [destruct v; reflexivity |].
  rewrite text_of_value, resolved_visual_value by reflexivity.
  cbn [loading healthStatus status]. rewrite Hr. split; reflexivity.
Qed.

(** ** Theme colours of the chip *)

Lemma palette_entries_resolve :
  Forall (fun kv => resolve_colour Main.wevolveTheme (fst kv) = JStr (snd kv))
         App.palette.
Proof.
  repeat constructor.
Qed.

(** X9: the two colour entries the MUI chip can carry always name a path of
    the theme palette.  In every state they resolve through `wevolveTheme`
    to a hex colour: emerald #10b981 when the stored status is exactly
    "healthy", red #ef4444 otherwise, loading or not. *)
Theorem chip_colour_resolves_in_theme :
  forall st : State,
    exists c : App.Chip,
      App.render st = Ok c /\
      App.borderColor c = App.color c /\
      resolve_colour Main.wevolveTheme (App.color c)
      = JStr (if reports_healthy (healthStatus st) then "#10b981" else "#ef4444") /\
      App.palette_lookup (App.color c) App.palette
      = Some (if reports_healthy (healthStatus st) then "#10b981" else "#ef4444").
Proof.
  intros st. unfold App.render.
  rewrite app_label_value, app_colour_value. simpl.
  eexists. split; [reflexivity |]. simpl.
  destruct (reports_healthy (healthStatus st)); repeat split.
Qed.

(** ** The rewrite rule *)

Lemma split_on_free (sep : ascii) (a : string) :
  free_of sep a = true -> split_on sep a = [a].
Proof.
  induction a as [| c a IH]; simpl; [reflexivity |].
  intros H. apply andb_prop in H. destruct H as [Hc Ha].
  apply negb_true_iff in Hc. rewrite Hc, (IH Ha). reflexivity.
Qed.

Lemma split_on_app (sep : ascii) (a b : string) :
  free_of sep a = true ->
  split_on sep (a ++ String sep b) = a :: split_on sep b.
Proof.
  induction a as [| c a IH]; simpl.
  - intros _. now rewrite Ascii.eqb_refl.
  - intros H. apply andb_prop in H. destruct H as [Hc Ha].
    apply negb_true_iff in Hc. rewrite Hc, (IH Ha). reflexivity.
Qed.

Lemma split_on_concat (sep : ascii) (segs : list string) :
  segs <> [] ->
  forallb (free_of sep) segs = true ->
  split_on sep (String.concat (String sep EmptyString) segs) = segs.
Proof.
  induction segs as [| x [| y rest] IH]; intros Hne Hfree.
  - contradiction.
  - simpl in *. apply andb_prop in Hfree. now apply split_on_free.
  - cbn [forallb] in Hfree. apply andb_prop in Hfree. destruct Hfree as [Hx Hrest].
    change (String.concat (String sep EmptyString) (x :: y :: rest))
      with (x ++ String sep (String.concat (String sep EmptyString) (y :: rest))).
    rewrite (split_on_app _ _ _ Hx). f_equal.
    apply IH; [discriminate | exact Hrest].
Qed.

Lemma segments_path_of (segs : list string) :
  segs <> [] ->
  forallb (free_of "/") segs = true ->
  segments (path_of segs) = Some segs.
Proof.
  intros Hne Hfree. unfold path_of.
  change ("/" ++ String.concat "/" segs) with (String "/" (String.concat "/" segs)).
  cbn [segments]. rewrite Ascii.eqb_refl. f_equal.
  now apply split_on_concat.
Qed.

Lemma unreserved_free_of_slash (s : string) :
  all_chars unreserved s = true -> free_of "/" s = true.
Proof.
  induction s as [| c s IH]; [reflexivity |].
  cbn [all_chars free_of]. intros H. apply andb_prop in H. destruct H as [Hc Hs].
  rewrite (IH Hs), andb_true_r.
  destruct (Ascii.eqb_spec c "/") as [-> | _]; [discriminate | reflexivity].
Qed.

Lemma is_segment_parts (segs : list string) :
  forallb is_segment segs = true ->
  forallb (fun x => negb (String.eqb x "")) segs = true /\
  forallb (free_of "/") segs = true /\
  forallb dot_free segs = true.
Proof.
  induction segs as [| x rest IH]; [cbn; auto |].
  cbn [forallb]. intros H. apply andb_prop in H. destruct H as [Hx Hrest].
  destruct (IH Hrest) as (H1 & H2 & H3). rewrite H1, H2, H3.
  unfold is_segment in Hx.
  apply andb_prop in Hx. destruct Hx as [Hx Hdd].
  apply andb_prop in Hx. destruct Hx as [Hx Hsd].
  apply andb_prop in Hx. destruct Hx as [Hne Hun].
  unfold dot_free. rewrite Hne, Hsd, Hdd, (unreserved_free_of_slash x Hun). auto.
Qed.

Lemma remove_dots_from_plain (stack segs : list string) :
  forallb dot_free segs = true ->
  remove_dots_from stack segs = (rev stack ++ segs)%list.
Proof.
  revert stack. induction segs as [| seg rest IH]; intros stack H.
  - cbn [remove_dots_from]. now rewrite app_nil_r.
  - cbn [forallb] in H. apply andb_prop in H. destruct H as [Hseg Hrest].
    unfold dot_free in Hseg. apply andb_prop in Hseg. destruct Hseg as [Hs Hd].
    apply negb_true_iff in Hs. apply negb_true_iff in Hd.
    cbn [remove_dots_from]. rewrite Hs, Hd, (IH (seg :: stack) Hrest).
    cbn [rev]. now rewrite <- app_assoc.
Qed.

(** What the one rule of the table does with a pathname. *)
Lemma apply_rewrites_form (path : string) :
  apply_rewrites NextConfig.rewrites path =
  match segments path with
  | Some (first :: rest) =>
      if String.eqb "api" (lowercase first)
         && forallb (fun x => negb (String.eqb x "")) rest
      then Some (Home.API_BASE ++ path_of (remove_dots ("api" :: rest)))
      else None
  | _ => None
  end.
Proof.
  unfold apply_rewrites, NextConfig.rewrites, apply_rewrite.
  change (segments (NextConfig.source
            (NextConfig.mkRewrite "/api/:path*" "http://localhost:8000/api/:path*")))
    with (Some ["api"; ":path*"]).
  change (split_on "/" (NextConfig.destination
            (NextConfig.mkRewrite "/api/:path*" "http://localhost:8000/api/:path*")))
    with ["http:"; ""; "localhost:8000"; "api"; ":path*"].
  destruct (segments path) as [[| first rest] |]; [reflexivity | | reflexivity].
  cbv beta iota.
  change (map token_of ["api"; ":path*"]) with [Lit "api"; ParamStar "path"].
  cbn [match_tokens].
  change (lowercase "api") with "api".
  destruct (String.eqb "api" (lowercase first)); [| reflexivity].
  destruct (forallb (fun x => negb (String.eqb x "")) rest); [| reflexivity].
  cbn [andb].
  change (substitute [("path", rest)] ["api"; ":path*"])
    with ("api" :: (rest ++ [])%list).
  rewrite app_nil_r. reflexivity.
Qed.

(** X10: the proxy keeps the path.  Every pathname `/api/s1/.../sn`, with
    any number (none included) of plain segments, is rewritten to the same
    path on the origin the pages use as `API_BASE`. *)
Theorem api_paths_proxied_to_backend :
  forall segs : list string,
    forallb is_segment segs = true ->
    apply_rewrites NextConfig.rewrites (path_of ("api" :: segs))
    = Some (Home.API_BASE ++ path_of ("api" :: segs)).
Proof.
  intros segs Hsegs. destruct (is_segment_parts segs Hsegs) as (Hne & Hfree & Hdots).
  rewrite apply_rewrites_form.
  rewrite segments_path_of; [| discriminate | cbn [forallb]; now rewrite Hfree].
  change (lowercase "api") with "api". rewrite Hne.
  change (String.eqb "api" "api") with true. cbn [andb].
  unfold remove_dots. rewrite remove_dots_from_plain; [reflexivity |].
  cbn [forallb]. now rewrite Hdots.
Qed.

Lemma api_paths_proxied_to_backend_witness :
  forallb is_segment ["jobs"; "42"; "match"] = true /\
  path_of ["api"; "jobs"; "42"; "match"] = "/api/jobs/42/match" /\
  apply_rewrites NextConfig.rewrites (path_of ["api"; "jobs"; "42"; "match"])
  = Some (Home.API_BASE ++ path_of ["api"; "jobs"; "42"; "match"]).
Proof.
  split; [reflexivity |]. split; [reflexivity |].
  apply (api_paths_proxied_to_backend ["jobs"; "42"; "match"]). reflexivity.
Defined.

(** X11: nothing else is proxied.  When the table rewrites a pathname, the
    pathname starts with a slash, its first segment is `api` (in any letter
    case), its remaining segments are non-empty, and the target is on the
    backend origin; when the remaining segments are plain, the target path
    is `/api` followed by them.  A pathname such as `/health` is left
    alone, and dot segments are resolved in the target. *)
Theorem only_api_paths_are_rewritten :
  forall (path url : string),
    apply_rewrites NextConfig.rewrites path = Some url ->
    exists first rest target,
      segments path = Some (first :: rest) /\
      lowercase first = "api" /\
      forallb (fun x => negb (String.eqb x "")) rest = true /\
      url = Home.API_BASE ++ path_of target /\
      (forallb is_segment rest = true -> target = "api" :: rest).
Proof.
  intros path url H. rewrite apply_rewrites_form in H.
  destruct (segments path) as [[| first rest] |]; try discriminate.
  destruct (String.eqb "api" (lowercase first)) eqn:Hfirst; [| discriminate].
  destruct (forallb (fun x => negb (String.eqb x "")) rest) eqn:Hrest;
    [| discriminate].
  cbn [andb] in H. injection H as <-.
  exists first, rest, (remove_dots ("api" :: rest)).
  apply String.eqb_eq in Hfirst.
  split; [reflexivity |]. split; [now symmetry |]. split; [exact Hrest |].
  split; [reflexivity |].
  intros Hplain. destruct (is_segment_parts rest Hplain) as (_ & _ & Hdots).
  unfold remove_dots. rewrite remove_dots_from_plain; [reflexivity |].
  cbn [forallb]. now rewrite Hdots.
Qed.

Lemma only_api_paths_are_rewritten_witness :
  apply_rewrites NextConfig.rewrites "/API/jobs/7"
  = Some "http://localhost:8000/api/jobs/7" /\
  apply_rewrites NextConfig.rewrites "/health" = None /\
  apply_rewrites NextConfig.rewrites "evil/api/x" = None /\
  apply_rewrites NextConfig.rewrites "/api/../health"
  = Some "http://localhost:8000/health" /\
  exists first rest target,
    segments "/API/jobs/7" = Some (first :: rest) /\
    lowercase first = "api" /\
    forallb (fun x => negb (String.eqb x "")) rest = true /\
    "http://localhost:8000/api/jobs/7" = Home.API_BASE ++ path_of target /\
    (forallb is_segment rest = true -> target = "api" :: rest).
Proof.
  split; [reflexivity |]. split; [reflexivity |]. split; [reflexivity |].
  split; [reflexivity |].
  apply (only_api_paths_are_rewritten "/API/jobs/7"). reflexivity.
Defined.

(** ** The texts of the two pages *)

Lemma home_render_value (st : State) :
  exists b, Home.render st = Ok b /\
            Home.children b =
            (if loading st then "Connecting..."
             else if reports_healthy (healthStatus st)
                  then "🟢 Backend Connected" else "🔴 Backend Offline").
Proof.
  unfold Home.render. rewrite home_class_value, home_text_value.
  eexists. split; reflexivity.
Qed.

Lemma app_render_value (st : State) :
  exists c, App.render st = Ok c /\
            App.label c =
            (if loading st then "Connecting..."
             else if reports_healthy (healthStatus st)
                  then "🟢 Backend Connected" else "🔴 Backend Offline").
Proof.
  unfold App.render. rewrite app_label_value, app_colour_value.
  eexists. split; reflexivity.
Qed.

(** X12: in every state both pages render, and they show the same texts in
    the same order (heading, tagline, badge, the three feature cards with
    title, description and tag, the call to action with its hint, the
    footer) with one exception: the button reads "🚀 Start Your Evolution"
    on the Tailwind page and "Start Your Evolution" on the MUI page. *)
Theorem pages_show_same_texts :
  forall st : State,
    exists th ta : Node,
      HomePage.page st = Ok th /\
      AppPage.page st = Ok ta /\
      length (text_content th) = 16 /\
      length (text_content ta) = 16 /\
      differences (text_content th) (text_content ta)
      = [("🚀 Start Your Evolution", "Start Your Evolution")].
Proof.
  intros st.
  destruct (home_render_value st) as (b & Hb & Hbt).
  destruct (app_render_value st) as (c & Hc & Hct).
  unfold HomePage.page, AppPage.page. rewrite Hb, Hc.
  eexists. eexists. split; [reflexivity |]. split; [reflexivity |].
  cbn [bind]. rewrite ?Hbt, ?Hct.
  destruct (loading st); [| destruct (reports_healthy (healthStatus st))];
    repeat split; vm_compute; rewrite ?Hbt, ?Hct; reflexivity.
Qed.
